(** * OIDC login continuation engine: a shallow embedding

    The development follows the three Go packages of the sources:
    - [url]: the part of Go's [net/url] (and of [urlx]) the code calls,
    - [flow]: the [ContinueWith] values and their [AppendTo] methods,
    - [oidc]: the provider registry ([ConfigurationCollection.Provider]) and
      the login strategy ([Strategy.processLogin], [Strategy.Login]).

    Definitions come first, the lemmas and theorems follow. *)

From Stdlib Require Import Ascii NArith.
From stdpp Require Import base gmap strings list sorting.

(** ** Go's [net/url]: query strings *)

Module url.

(** [url.Values] is [map[string][]string]. *)
Abbreviation Values := (gmap string (list string)).

(** [(v Values) Set(key, value)] replaces whatever was stored under [key]. *)
Definition Set_ (v : Values) (key value : string) : Values :=
  <[key := [value]]> v.

(** [(v Values) Get(key)]: the first value, or the empty string. *)
Definition Get (v : Values) (key : string) : string :=
  match v !! key with
  | Some (x :: _) => x
  | _ => ""
  end.

Definition between (lo hi c : ascii) : bool :=
  (N_of_ascii lo <=? N_of_ascii c)%N && (N_of_ascii c <=? N_of_ascii hi)%N.

Definition ishex (c : ascii) : bool :=
  between "0" "9" c || between "a" "f" c || between "A" "F" c.

Definition unhex (c : ascii) : N :=
  if between "0" "9" c then N_of_ascii c - N_of_ascii "0"
  else if between "a" "f" c then N_of_ascii c - N_of_ascii "a" + 10
  else if between "A" "F" c then N_of_ascii c - N_of_ascii "A" + 10
  else 0.

Definition hexdigit (digits : string) (n : N) : ascii :=
  match String.get (N.to_nat n) digits with
  | Some d => d
  | None => "0"%char
  end.

Definition upperhex : string := "0123456789ABCDEF".

(** [shouldEscape(c, encodeQueryComponent)]: only the unreserved characters
    of RFC 3986 go through. *)
Definition shouldEscape (c : ascii) : bool :=
  if between "a" "z" c || between "A" "Z" c || between "0" "9" c then false
  else if (c =? "-")%char || (c =? "_")%char || (c =? ".")%char || (c =? "~")%char
  then false
  else true.

Definition escapeByte (c : ascii) : string :=
  if shouldEscape c then
    if (c =? " ")%char then "+"
    else String "%" (String (hexdigit upperhex (N.shiftr (N_of_ascii c) 4))
                    (String (hexdigit upperhex (N.land (N_of_ascii c) 15)) ""))
  else String c "".

(** [url.QueryEscape]. *)
Fixpoint QueryEscape (s : string) : string :=
  match s with
  | "" => ""
  | String c s' => escapeByte c +:+ QueryEscape s'
  end.

(** [url.QueryUnescape]; [None] stands for the [EscapeError]. *)
Fixpoint QueryUnescape (s : string) : option string :=
  match s with
  | "" => Some ""
  | String c rest =>
      if (c =? "%")%char then
        match rest with
        | String a (String b rest') =>
            if ishex a && ishex b then
              String (ascii_of_N (N.lor (N.shiftl (unhex a) 4) (unhex b)))
                <$> QueryUnescape rest'
            else None
        | _ => None
        end
      else if (c =? "+")%char then String " " <$> QueryUnescape rest
      else String c <$> QueryUnescape rest
  end.

(** [strings.Contains(s, sep)] for a one-byte separator. *)
Fixpoint Contains (s : string) (sep : ascii) : bool :=
  match s with
  | "" => false
  | String c s' => (c =? sep)%char || Contains s' sep
  end.

(** [strings.Cut(s, sep)] for a one-byte separator: the text before the
    first separator and the text after it (all of [s] and the empty string
    when there is none). *)
Fixpoint Cut (s : string) (sep : ascii) : string * string :=
  match s with
  | "" => ("", "")
  | String c s' =>
      if (c =? sep)%char then ("", s')
      else let '(before, after) := Cut s' sep in (String c before, after)
  end.

(** The pieces [parseQuery] cuts off one after the other at each ['&']. *)
Fixpoint pieces (query : string) : list string :=
  match query with
  | "" => [""]
  | String c q' =>
      if (c =? "&")%char then "" :: pieces q'
      else match pieces q' with
           | p :: ps => String c p :: ps
           | [] => [String c ""]
           end
  end.

(** One turn of the loop of [parseQuery]: pieces with a semicolon, empty
    pieces and pieces that do not unescape are skipped (the error they
    raise is dropped by [URL.Query]); otherwise the value is appended to
    the values of its key. *)
Definition parsePiece (m : Values) (key : string) : Values :=
  if Contains key ";" then m
  else if String.eqb key "" then m
  else
    let '(key, value) := Cut key "=" in
    match QueryUnescape key with
    | None => m
    | Some key =>
        match QueryUnescape value with
        | None => m
        | Some value => <[key := m !!! key ++ [value]]> m
        end
    end.

(** [url.ParseQuery], without its error. *)
Definition ParseQuery (query : string) : Values :=
  foldl parsePiece ∅ (pieces query).

Definition string_le (a b : string) : Prop := String.leb a b = true.

#[global] Instance string_le_dec a b : Decision (string_le a b).
Proof. unfold string_le. apply _. Defined.

(** [(v Values) Encode()]: keys in sorted order, the values of a key in
    their order, ["key=value"] pairs joined by ['&']. *)
Definition encodeKey (v : Values) (k : string) : list string :=
  (λ x, QueryEscape k +:+ "=" +:+ QueryEscape x) <$> (v !!! k).

Definition Encode (v : Values) : string :=
  String.concat "&" (merge_sort string_le (map_to_list v).*1 ≫= encodeKey v).

(** [url.URL], the fields that are plain data. *)
Record URL : Type := mkURL {
  Scheme : string;
  Opaque : string;
  Host : string;
  Path : string;
  RawPath : string;
  RawQuery : string;
  Fragment : string;
}.

(** [(u *URL) Query()] parses [RawQuery] afresh on every call. *)
Definition Query (u : URL) : Values := ParseQuery (RawQuery u).

Definition withRawQuery (u : URL) (q : string) : URL :=
  {| Scheme := Scheme u; Opaque := Opaque u; Host := Host u; Path := Path u;
     RawPath := RawPath u; RawQuery := q; Fragment := Fragment u |}.

(** The three separators of a query string. *)
Definition separator (sep : ascii) : Prop :=
  sep = "&"%char ∨ sep = "="%char ∨ sep = ";"%char.

(** Every key of the map has at least one value. *)
Definition populated (v : Values) : Prop := ∀ k, v !! k ≠ Some [].

End url.

(** ** [gofrs/uuid] and [ory/x/urlx] *)

Module uuid.

(** [type UUID [16]byte]: the sixteen bytes, in order. *)
Definition UUID : Type := list ascii.

Definition hextable : string := "0123456789abcdef".

(** [hex.Encode]. *)
Definition hexEncode (src : list ascii) : string :=
  foldr (λ c acc,
           String (url.hexdigit hextable (N.shiftr (N_of_ascii c) 4))
             (String (url.hexdigit hextable (N.land (N_of_ascii c) 15)) acc))
        "" src.

(** [(u UUID) String()]: the canonical 8-4-4-4-12 form. *)
Definition String_ (u : UUID) : string :=
  hexEncode (take 4 u) +:+ "-" +:+ hexEncode (take 2 (drop 4 u)) +:+ "-"
  +:+ hexEncode (take 2 (drop 6 u)) +:+ "-" +:+ hexEncode (take 2 (drop 8 u))
  +:+ "-" +:+ hexEncode (drop 10 u).

End uuid.

(** A [*url.URL] is an address in a store of URL values; [nil] and dangling
    addresses are the ones the store does not map, and dereferencing them
    panics ([None]). *)
Abbreviation ptr := positive (only parsing).
Abbreviation urlStore := (gmap positive url.URL).

Module urlx.

(** [urlx.Copy]: [out := new(url.URL); *out = *src]. *)
Definition Copy (src : ptr) (h : urlStore) : option (ptr * urlStore) :=
  u ← h !! src;
  let out := fresh (dom h) in
  Some (out, <[out := u]> h).

(** The loop of [urlx.CopyWithQuery],
    [for k := range query { q.Set(k, query.Get(k)) }]: every key of [query]
    is set in [q] to the first of its values. The keys of a map are
    distinct and each turn writes its own key, so the order in which the
    map is ranged over does not show in the result. *)
Definition merged (q query : url.Values) : url.Values :=
  map_fold (λ k _ q, url.Set_ q k (url.Get query k)) q query.

(** [urlx.CopyWithQuery]:
    [out := Copy(u); q := out.Query(); for k := range query { ... };
     out.RawQuery = q.Encode()]. *)
Definition CopyWithQuery (u : ptr) (query : url.Values) (h : urlStore)
  : option (ptr * urlStore) :=
  '(out, h) ← Copy u h;
  o ← h !! out;
  let q := url.Query o in
  let q := merged q query in
  Some (out, <[out := url.withRawQuery o (url.Encode q)]> h).

End urlx.

(** ** Package [flow]: the [ContinueWith] values *)

Module flow.

(** [type Type string], with the two flow types. *)
Definition Type_ : Type := string.
Definition TypeAPI : Type_ := "api".
Definition TypeBrowser : Type_ := "browser".

Definition ContinueWithAction : Type := string.
Definition ContinueWithActionSetOrySessionToken : ContinueWithAction :=
  "set_ory_session_token".
Definition ContinueWithActionVerificationUI : ContinueWithAction :=
  "verification_ui".

Module ContinueWithSetToken.
Record t : Type := mk {
  Action : ContinueWithAction;
  OrySessionToken : string;
}.

(** [func (ContinueWithSetToken) AppendTo(url.Values) url.Values]. A
    [url.Values] is a Go map, that is a reference: the argument is the
    address of a map in the store [h] (or [nil]), and so is the result.
    The method returns [nil] and touches nothing. *)
Definition AppendTo (c : t) (values : option ptr) (h : gmap positive url.Values)
  : option ptr * gmap positive url.Values :=
  (None, h).
End ContinueWithSetToken.

(** Reading a map through its reference; a [nil] map reads as empty. *)
Definition valuesAt (h : gmap positive url.Values) (v : option ptr) : url.Values :=
  match v with
  | Some p => default ∅ (h !! p)
  | None => ∅
  end.

Definition NewContinueWithSetToken (t : string) : ContinueWithSetToken.t :=
  {| ContinueWithSetToken.Action := ContinueWithActionSetOrySessionToken;
     ContinueWithSetToken.OrySessionToken := t |}.

Module ContinueWithVerificationUIFlow.
Record t : Type := mk {
  ID : uuid.UUID;
  VerifiableAddress : string;
}.
End ContinueWithVerificationUIFlow.

Module ContinueWithVerificationUI.
Record t : Type := mk {
  Action : ContinueWithAction;
  Flow : ContinueWithVerificationUIFlow.t;
}.

(** [func (c ContinueWithVerificationUI) AppendTo(src *url.URL) *url.URL]. *)
Definition AppendTo (c : t) (src : ptr) (h : urlStore) : option (ptr * urlStore) :=
  u ← h !! src;
  let values := url.Query u in
  let values :=
    url.Set_ values "flow" (uuid.String_ (ContinueWithVerificationUIFlow.ID (Flow c))) in
  urlx.CopyWithQuery src values h.
End ContinueWithVerificationUI.

(** [NewContinueWithVerificationUI(f Flow, address string)]; of the flow
    only [f.GetID()] is used. *)
Definition NewContinueWithVerificationUI (fID : uuid.UUID) (address : string)
  : ContinueWithVerificationUI.t :=
  {| ContinueWithVerificationUI.Action := ContinueWithActionVerificationUI;
     ContinueWithVerificationUI.Flow :=
       {| ContinueWithVerificationUIFlow.ID := fID;
          ContinueWithVerificationUIFlow.VerifiableAddress := address |} |}.

(** The URL value [ContinueWithVerificationUI.AppendTo] writes for a source
    URL whose value is [u]: the copy has the query of the source, into
    which [urlx.CopyWithQuery] merges the values [AppendTo] hands it. *)
Definition augmented (c : ContinueWithVerificationUI.t) (u : url.URL) : url.URL :=
  let values := url.Query u in
  let values :=
    url.Set_ values "flow"
      (uuid.String_
         (ContinueWithVerificationUIFlow.ID (ContinueWithVerificationUI.Flow c))) in
  url.withRawQuery u (url.Encode (urlx.merged (url.Query u) values)).

(** [type ContinueWith interface{}], implemented by the two structs. *)
Inductive ContinueWith : Type :=
| SetToken (c : ContinueWithSetToken.t)
| VerificationUI (c : ContinueWithVerificationUI.t).

End flow.

(** ** Errors: [herodot], [pkg/errors], [sqlcon] *)

Module herodot.

(** [herodot.DefaultError], the fields that classify and explain it. *)
Record DefaultError : Type := mk {
  CodeField : nat;
  StatusField : string;
  ErrorField : string;
  ReasonField : string;
  DebugField : string;
}.

#[global] Instance DefaultError_eq_dec : EqDecision DefaultError.
Proof. solve_decision. Defined.

Definition WithReason (e : DefaultError) (reason : string) : DefaultError :=
  {| CodeField := CodeField e; StatusField := StatusField e;
     ErrorField := ErrorField e; ReasonField := reason; DebugField := DebugField e |}.

Definition WithDebug (e : DefaultError) (debug : string) : DefaultError :=
  {| CodeField := CodeField e; StatusField := StatusField e;
     ErrorField := ErrorField e; ReasonField := ReasonField e; DebugField := debug |}.

Definition ErrBadRequest : DefaultError :=
  {| CodeField := 400; StatusField := "Bad Request";
     ErrorField := "The request was malformed or contained invalid parameters";
     ReasonField := ""; DebugField := "" |}.

Definition ErrNotFound : DefaultError :=
  {| CodeField := 404; StatusField := "Not Found";
     ErrorField := "The requested resource could not be found";
     ReasonField := ""; DebugField := "" |}.

Definition ErrInternalServerError : DefaultError :=
  {| CodeField := 500; StatusField := "Internal Server Error";
     ErrorField := "An internal server error occurred, please contact the system administrator";
     ReasonField := ""; DebugField := "" |}.

(** [(e DefaultError) Is(err)]: same error text, status and code. *)
Definition Is (e te : DefaultError) : bool :=
  String.eqb (ErrorField e) (ErrorField te)
  && String.eqb (StatusField e) (StatusField te)
  && Nat.eqb (CodeField e) (CodeField te).

End herodot.

Module errors.

(** The error values that reach the login strategy. [None : option error]
    is Go's [nil] error. *)
Inductive error : Type :=
| Herodot (e : herodot.DefaultError)
| ErrStrategyNotResponsible              (* flow.ErrStrategyNotResponsible *)
| ErrCompletedByStrategy                 (* flow.ErrCompletedByStrategy *)
| BrowserLocationChangeRequiredError (redirectTo : string)
| ErrIDTokenMissing                      (* oidc.ErrIDTokenMissing *)
| ErrProviderNoAPISupport                (* oidc.ErrProviderNoAPISupport *)
| UserNotFoundError                      (* oidc.NewUserNotFoundError() *)
| New (text : string)                    (* errors.New, errors.Errorf *)
| Foreign (text : string)                (* an error of a collaborator *)
| WithStack (err : error).               (* errors.WithStack *)

#[global] Instance error_eq_dec : EqDecision error.
Proof. solve_decision. Defined.

(** [errors.Is(err, target)] for a target that is not itself a wrapper:
    walk down the chain of wrappers; a herodot error answers with its own
    [Is] method. *)
Fixpoint Is (err target : error) : bool :=
  match err with
  | WithStack err' => Is err' target
  | Herodot e =>
      match target with
      | Herodot te => herodot.Is e te
      | _ => false
      end
  | _ => bool_decide (err = target)
  end.

End errors.

Module sqlcon.
(** [sqlcon.ErrNoRows]. *)
Definition ErrNoRows : errors.error :=
  errors.Herodot
    {| herodot.CodeField := 404; herodot.StatusField := "Not Found";
       herodot.ErrorField := "Unable to locate the resource";
       herodot.ReasonField := ""; herodot.DebugField := "" |}.
End sqlcon.

Module time.
(** [time.Duration] counts nanoseconds. *)
Definition Duration : Type := Z.
Definition Nanosecond : Duration := 1%Z.
Definition Microsecond : Duration := (1000 * Nanosecond)%Z.
Definition Millisecond : Duration := (1000 * Microsecond)%Z.
Definition Second : Duration := (1000 * Millisecond)%Z.
Definition Minute : Duration := (60 * Second)%Z.
End time.

(** ** The packages the strategy works with: [identity], [session], [login],
    [registration]. Their sources are not at hand; the records hold the
    fields the strategy reads or writes. *)

(** [json.RawMessage]. *)
Abbreviation RawMessage := string (only parsing).

Module identity.

(** [type CredentialsType string]. *)
Definition CredentialsType : Type := string.
Definition CredentialsTypeOIDC : CredentialsType := "oidc".

(** [type AuthenticatorAssuranceLevel string]. *)
Definition AuthenticatorAssuranceLevel : Type := string.
Definition NoAuthenticatorAssuranceLevel : AuthenticatorAssuranceLevel := "aal0".
Definition AuthenticatorAssuranceLevel1 : AuthenticatorAssuranceLevel := "aal1".
Definition AuthenticatorAssuranceLevel2 : AuthenticatorAssuranceLevel := "aal2".

Record Identity : Type := mkIdentity {
  ID : uuid.UUID;
  SchemaID : string;
  Traits : RawMessage;
}.

Record Credentials : Type := mkCredentials {
  Type_ : CredentialsType;
  Identifiers : list string;
  Config : RawMessage;
}.

(** One linked provider of [identity.CredentialsOIDC]. *)
Record CredentialsOIDCProvider : Type := mkCredentialsOIDCProvider {
  Subject : string;
  Provider : string;
  InitialIDToken : string;
  InitialAccessToken : string;
  InitialRefreshToken : string;
}.

Record CredentialsOIDC : Type := mkCredentialsOIDC {
  Providers : list CredentialsOIDCProvider;
}.

End identity.

Module session.

Record AuthenticationMethod : Type := mkAuthenticationMethod {
  Method : identity.CredentialsType;
  AAL : identity.AuthenticatorAssuranceLevel;
}.

Record Session : Type := mkSession {
  Active : bool;
  AuthenticatorAssuranceLevel : identity.AuthenticatorAssuranceLevel;
  AMR : list AuthenticationMethod;
}.

(** Modelled from the spec: [session.NewInactiveSession] is not among the
    sources. §6 lists [newInactiveSession()] of the session collaborator and
    §4.4 step 5 has "a new inactive session is created": a session that is
    not active and has completed no method yet (its random tokens are left
    out). *)
Definition NewInactiveSession : Session :=
  {| Active := false;
     AuthenticatorAssuranceLevel := identity.NoAuthenticatorAssuranceLevel;
     AMR := [] |}.

(** Modelled from the spec: [Session.CompletedLoginFor] is not among the
    sources. §6: [session.completedLoginFor(strategyID, aal)]; §4.4 step 5:
    the session is "marked as having completed AAL1 via this strategy": the
    method and its level are added to the methods the session has completed
    (the time stamp is left out). *)
Definition CompletedLoginFor (s : Session) (method : identity.CredentialsType)
    (aal : identity.AuthenticatorAssuranceLevel) : Session :=
  {| Active := Active s;
     AuthenticatorAssuranceLevel := AuthenticatorAssuranceLevel s;
     AMR := AMR s ++ [ {| Method := method; AAL := aal |} ] |}.

End session.

Module login.

Record Flow : Type := mkFlow {
  ID : uuid.UUID;
  Type_ : flow.Type_;
  RequestURL : string;
  ReturnTo : string;
  Active : identity.CredentialsType;
  RequestedAAL : identity.AuthenticatorAssuranceLevel;
  Refresh : bool;
}.

(** The assignment [f.Active = method]. *)
Definition withActive (f : Flow) (method : identity.CredentialsType) : Flow :=
  {| ID := ID f; Type_ := Type_ f; RequestURL := RequestURL f;
     ReturnTo := ReturnTo f; Active := method;
     RequestedAAL := RequestedAAL f; Refresh := Refresh f |}.

End login.

Module registration.

Record Flow : Type := mkFlow {
  ID : uuid.UUID;
  Type_ : flow.Type_;
  RequestURL : string;
  ReturnTo : string;
  Active : identity.CredentialsType;
}.

(** The assignment [aa.RequestURL = u]. *)
Definition withRequestURL (aa : Flow) (u : string) : Flow :=
  {| ID := ID aa; Type_ := Type_ aa; RequestURL := u;
     ReturnTo := ReturnTo aa; Active := Active aa |}.

(** [registration.FlowOption]; the strategy builds [WithFlowReturnTo] only. *)
Inductive FlowOption : Type :=
| WithFlowReturnTo (returnTo : string).

End registration.

Module http.

(** [*http.Request]: the request URL, which the strategy rewrites, and the
    rest, which it hands on. *)
Record Request : Type := mkRequest {
  Method : string;
  URL : url.URL;
  Body : string;
}.

Definition withURL (r : Request) (u : url.URL) : Request :=
  {| Method := Method r; URL := u; Body := Body r |}.

Definition StatusSeeOther : nat := 303.

End http.

Module node.
(** [node.OpenIDConnectGroup]. *)
Definition UiNodeGroup : Type := string.
Definition OpenIDConnectGroup : UiNodeGroup := "oidc".
End node.

Module oauth2.

Record Token : Type := mkToken {
  AccessToken : string;
  TokenType : string;
  RefreshToken : string;
}.

Record Config : Type := mkConfig {
  ClientID : string;
  ClientSecret : string;
  AuthURL : string;
  TokenURL : string;
  RedirectURL : string;
  Scopes : list string;
}.

(** [oauth2.AuthCodeOption]: a parameter of the authorization URL. *)
Definition AuthCodeOption : Type := (string * string)%type.

End oauth2.

(** ** Package [oidc] *)

Module oidc.
Export errors.

(** The double quote of [%q]-like formats. *)
Definition dquote : string := String "034" "".

Module Configuration.
Record t : Type := mk {
  ID : string;
  Provider : string;
  Label : string;
  ClientID : string;
  ClientSecret : string;
  IssuerURL : string;
  AuthURL : string;
  TokenURL : string;
  Tenant : string;
  SubjectSource : string;
  TeamId : string;
  PrivateKeyId : string;
  PrivateKey : string;
  Scope : list string;
  Mapper : string;
  RequestedClaims : RawMessage;
}.
End Configuration.

(** [authCodeContainer], the payload that is paused across the redirect. *)
Record authCodeContainer : Type := mkAuthCodeContainer {
  State : string;
  FlowID : string;
  Traits : RawMessage;
}.

(** The [dependencies] ([s.d], and [reg] in the registry): what the
    collaborators answer when called. Each of them is called at most once
    on a path through [processLogin] or [Login], so an answer is a function
    of the arguments of the call. The calls themselves are recorded in the
    trace of the run, see [Event] below. *)
Record dependencies : Type := mkDependencies {
  (* PrivilegedIdentityPool() *)
  FindByCredentialsIdentifier :
    identity.CredentialsType → string →
    (identity.Identity * identity.Credentials) + error;
  (* RegistrationHandler() *)
  NewRegistrationFlow :
    http.Request → flow.Type_ → list registration.FlowOption →
    registration.Flow + error;
  (* LoginHookExecutor() *)
  PostLoginHook :
    http.Request → node.UiNodeGroup → login.Flow → identity.Identity →
    session.Session → option error;
  (* ContinuityManager() *)
  Pause :
    http.Request → string → authCodeContainer → time.Duration → option error;
  (* LoginFlowPersister() *)
  UpdateLoginFlow : login.Flow → option error;
  (* flow.MethodEnabledAndAllowedFromRequest(r, name, d) *)
  MethodEnabledAndAllowedFromRequest : http.Request → string → option error;
  (* flow.MethodEnabledAndAllowed(ctx, flowName, method, d) *)
  MethodEnabledAndAllowed : string → string → option error;
}.

(** The provider implementations are not among the sources; a runtime
    provider is the implementation that was chosen together with what its
    constructor was given. *)
Inductive implementation : Type :=
| ProviderGenericOIDC | ProviderGoogle | ProviderGitHub | ProviderGitHubApp
| ProviderGitLab | ProviderMicrosoft | ProviderDiscord | ProviderSlack
| ProviderFacebook | ProviderAuth0 | ProviderVK | ProviderYandex
| ProviderApple | ProviderSpotify | ProviderNetID | ProviderDingTalk
| ProviderLinkedIn | ProviderPatreon.

Record Provider : Type := mkProvider {
  implementation_of : implementation;
  Config : Configuration.t;
  reg : dependencies;
}.

(** Modelled from the spec: the constructors [NewProviderGenericOIDC], ...,
    [NewProviderPatreon] are not among the sources. §4.1: "constructs a
    fresh Provider bound to that configuration and the shared runtime
    dependencies. Construction is pure and side-effect-free". *)
Definition NewProviderGenericOIDC c reg := mkProvider ProviderGenericOIDC c reg.
Definition NewProviderGoogle c reg := mkProvider ProviderGoogle c reg.
Definition NewProviderGitHub c reg := mkProvider ProviderGitHub c reg.
Definition NewProviderGitHubApp c reg := mkProvider ProviderGitHubApp c reg.
Definition NewProviderGitLab c reg := mkProvider ProviderGitLab c reg.
Definition NewProviderMicrosoft c reg := mkProvider ProviderMicrosoft c reg.
Definition NewProviderDiscord c reg := mkProvider ProviderDiscord c reg.
Definition NewProviderSlack c reg := mkProvider ProviderSlack c reg.
Definition NewProviderFacebook c reg := mkProvider ProviderFacebook c reg.
Definition NewProviderAuth0 c reg := mkProvider ProviderAuth0 c reg.
Definition NewProviderVK c reg := mkProvider ProviderVK c reg.
Definition NewProviderYandex c reg := mkProvider ProviderYandex c reg.
Definition NewProviderApple c reg := mkProvider ProviderApple c reg.
Definition NewProviderSpotify c reg := mkProvider ProviderSpotify c reg.
Definition NewProviderNetID c reg := mkProvider ProviderNetID c reg.
Definition NewProviderDingTalk c reg := mkProvider ProviderDingTalk c reg.
Definition NewProviderLinkedIn c reg := mkProvider ProviderLinkedIn c reg.
Definition NewProviderPatreon c reg := mkProvider ProviderPatreon c reg.

(** The error for an id no configuration has. *)
Definition providerUnknown (id : string) : error :=
  WithStack (Herodot (herodot.WithReason herodot.ErrNotFound
    ("OpenID Connect Provider " +:+ dquote +:+ id +:+ dquote
     +:+ " is unknown or has not been configured"))).

Module ConfigurationCollection.

Record t : Type := mk {
  BaseRedirectURI : string;
  Providers : list Configuration.t;
}.

(** The map literal of [Provider]. *)
Definition providers : gmap string (Configuration.t → dependencies → Provider) :=
  list_to_map [
    ("generic", NewProviderGenericOIDC);
    ("google", NewProviderGoogle);
    ("github", NewProviderGitHub);
    ("github-app", NewProviderGitHubApp);
    ("gitlab", NewProviderGitLab);
    ("microsoft", NewProviderMicrosoft);
    ("discord", NewProviderDiscord);
    ("slack", NewProviderSlack);
    ("facebook", NewProviderFacebook);
    ("auth0", NewProviderAuth0);
    ("vk", NewProviderVK);
    ("yandex", NewProviderYandex);
    ("apple", NewProviderApple);
    ("spotify", NewProviderSpotify);
    ("netid", NewProviderNetID);
    ("dingtalk", NewProviderDingTalk);
    ("linkedin", NewProviderLinkedIn);
    ("patreon", NewProviderPatreon)
  ].

(** [fmt]'s [%v] of a [[]string]. *)
Definition fmt_v (l : list string) : string :=
  "[" +:+ String.concat " " l +:+ "]".

Section Provider.
(** Go ranges over a map in an order of its own choosing: [rangeOrder]
    is the order this run takes the keys in. *)
Variable rangeOrder : list string → list string.

Definition providerNames : list string :=
  rangeOrder (map_to_list providers).*1.

(** [for _, p := range c.Providers { if p.ID == id { ... } }] and the
    [return] after the loop. *)
Fixpoint rangeProviders (ps : list Configuration.t) (id : string)
    (reg : dependencies) : Provider + error :=
  match ps with
  | p :: ps =>
      if decide (Configuration.ID p = id) then
        match providers !! Configuration.Provider p with
        | None =>
            inr (New ("provider type " +:+ Configuration.Provider p
                      +:+ " is not supported, supported are: "
                      +:+ fmt_v providerNames))
        | Some f => inl (f p reg)
        end
      else rangeProviders ps id reg
  | [] => inr (providerUnknown id)
  end.

(** [func (c ConfigurationCollection) Provider(id, reg) (Provider, error)]. *)
Definition Provider (c : t) (id : string) (reg : dependencies)
  : oidc.Provider + error :=
  rangeProviders (Providers c) id reg.
End Provider.

End ConfigurationCollection.

(** *** The login strategy *)

(** Modelled from the spec: the type [Claims] is not among the sources.
    §3: "normalized identity assertion extracted from the provider:
    [subject] (stable unique identifier within the provider), plus
    arbitrary additional attributes used by the mapper". *)
Record Claims : Type := mkClaims {
  Subject : string;
  Attributes : gmap string string;
}.

(** [UpdateLoginFlowWithOidcMethod], the decoded payload. *)
Module UpdateLoginFlowWithOidcMethod.
Record t : Type := mk {
  Provider : string;
  CSRFToken : string;
  Method : string;
  Traits : RawMessage;
  UpstreamParameters : RawMessage;
  IDToken : string;
}.
End UpdateLoginFlowWithOidcMethod.

(** What [validateFlow] returns: a flow, of which only the id is seen. *)
Record ider : Type := mkIder { GetID : uuid.UUID }.

(** The calls a run makes to its collaborators, in order. *)
Inductive Event : Type :=
| CallFindByCredentialsIdentifier (ct : identity.CredentialsType) (identifier : string)
| CallLoggerDebug (provider subject message : string)
| CallNewRegistrationFlow (r : http.Request) (ft : flow.Type_)
    (opts : list registration.FlowOption)
| CallProcessRegistration (r : http.Request) (rf : registration.Flow)
    (token : option oauth2.Token) (claims : Claims) (provider : Provider)
    (container : option authCodeContainer)
| CallPostLoginHook (r : http.Request) (g : node.UiNodeGroup) (a : login.Flow)
    (i : identity.Identity) (sess : session.Session)
| CallHandleError (r : http.Request) (f : login.Flow) (provider : string)
    (traits : option RawMessage) (err : error)
| CallNewLinkDecoder (r : http.Request)
| CallMethodEnabledAndAllowedFromRequest (r : http.Request) (name : string)
| CallDecode (r : http.Request)
| CallMethodEnabledAndAllowed (flowName method : string)
| CallProvider (r : http.Request) (id : string)
| CallOAuth2 (provider : Provider)
| CallValidateFlow (r : http.Request) (rid : uuid.UUID)
| CallAlreadyAuthenticated (r : http.Request) (req : ider)
| CallPause (r : http.Request) (name : string) (payload : authCodeContainer)
    (lifespan : time.Duration)
| CallUpdateLoginFlow (f : login.Flow)
| CallWriteError (r : http.Request) (err : error)
| CallRedirect (r : http.Request) (to : string) (code : nat)
| CallClaimsFromIDToken (provider : Provider) (idToken : string).

(** The strategy [s]: its dependencies [s.d] and decoder [s.dec], and the
    answers of the methods and package functions it calls whose sources
    are not at hand. *)
Record Strategy : Type := mkStrategy {
  d : dependencies;
  (* s.ID() and s.SettingsStrategyID() *)
  ID : identity.CredentialsType;
  SettingsStrategyID : string;
  sessionName : string;
  (* (error).Error() *)
  Error : error → string;
  (* identity.OIDCUniqueID(provider, subject) *)
  OIDCUniqueID : string → string → string;
  (* x.TakeOverReturnToParameter(from, to) *)
  TakeOverReturnToParameter : string → string → string + error;
  (* s.processRegistration(w, r, rf, token, claims, provider, container) *)
  processRegistration :
    http.Request → registration.Flow → option oauth2.Token → Claims →
    Provider → option authCodeContainer → option error;
  (* json.NewDecoder(bytes.NewBuffer(c.Config)).Decode(&o) *)
  decodeCredentialsOIDC : RawMessage → identity.CredentialsOIDC + error;
  (* login.CheckAAL(f, expected) *)
  CheckAAL : login.Flow → identity.AuthenticatorAssuranceLevel → option error;
  (* s.newLinkDecoder(&p, r) *)
  newLinkDecoder : http.Request → UpdateLoginFlowWithOidcMethod.t + error;
  (* s.dec.Decode(r, &p, ...) *)
  Decode : http.Request → UpdateLoginFlowWithOidcMethod.t + error;
  (* s.provider(ctx, r, id) *)
  provider : http.Request → string → Provider + error;
  (* provider.OAuth2(ctx) *)
  OAuth2 : Provider → oauth2.Config + error;
  (* s.validateFlow(ctx, r, rid) *)
  validateFlow : http.Request → uuid.UUID → ider + error;
  (* s.alreadyAuthenticated(w, r, req) *)
  alreadyAuthenticated : http.Request → ider → bool;
  (* generateState(flowID) *)
  generateState : string → string;
  (* json.NewDecoder(bytes.NewBuffer(p.UpstreamParameters)).Decode(&up) *)
  decodeUpstreamParameters : RawMessage → gmap string string + error;
  (* c.AuthCodeURL(state, opts...) *)
  AuthCodeURL : oauth2.Config → string → list oauth2.AuthCodeOption → string;
  (* provider.AuthCodeURLOptions(req) *)
  AuthCodeURLOptions : Provider → ider → list oauth2.AuthCodeOption;
  (* UpstreamParameters(provider, up) *)
  UpstreamParameters : Provider → gmap string string → list oauth2.AuthCodeOption;
  (* x.IsJSONRequest(r) *)
  IsJSONRequest : http.Request → bool;
  (* provider.(APIFlowProvider) *)
  isAPIFlowProvider : Provider → bool;
  (* apiFlowProvider.ClaimsFromIDToken(ctx, idToken) *)
  ClaimsFromIDToken : Provider → string → Claims + error;
}.

(** The state of a run: the calls made so far and the request [*r], which
    [processLogin] writes to. *)
Record World : Type := mkWorld {
  trace : list Event;
  request : http.Request;
}.

(** Statements run in a world and either go on with a value or [return]
    from the function with a result of type [R]. *)
Definition M (R A : Type) : Type := World → (A + R) * World.

#[global] Instance M_ret {R} : MRet (M R) := λ A a w, (inl a, w).

#[global] Instance M_bind {R} : MBind (M R) := λ A B f m w,
  match m w with
  | (inl a, w') => f a w'
  | (inr r, w') => (inr r, w')
  end.

Definition Return {R A} (r : R) : M R A := λ w, (inr r, w).

Definition call {R A} (e : Event) (answer : A) : M R A := λ w,
  (inl answer, {| trace := trace w ++ [e]; request := request w |}).

Definition getRequest {R} : M R http.Request := λ w, (inl (request w), w).

Definition setRequest {R} (r : http.Request) : M R unit := λ w,
  (inl (), {| trace := trace w; request := r |}).

(** Running a function body: falling off its end and [return] are alike. *)
Definition run {R} (body : M R R) (w : World) : R * World :=
  match body w with
  | (inl r, w') | (inr r, w') => (r, w')
  end.

(** [for _, c := range l { body }]. *)
Fixpoint forEach {R A} (l : list A) (body : A → M R unit) : M R unit :=
  match l with
  | [] => mret ()
  | x :: l => body x;; forEach l body
  end.

(** Modelled from the spec: [Strategy.handleError] is not among the
    sources. §4.4 step 6: "every failure path funnels through a single
    error-annotation step that records the provider id, the originating
    flow, and an optional traits/container context, before returning the
    error to the caller layer". *)
Definition handleError {R} (f : login.Flow) (provider : string)
    (traits : option RawMessage) (err : error) : M R error :=
  r ← getRequest;
  call (CallHandleError r f provider traits err) err.


(** The debug message of the registration pivot. *)
Definition notRegistered : string :=
  "Received successful OpenID Connect callback but user is not registered. Re-initializing registration flow now.".

(** The internal error of [processLogin] for credentials that hold no
    link to the asserted provider and subject. *)
Definition credentialsMismatch (pid subject : string) : error :=
  WithStack (Herodot (herodot.WithDebug
    (herodot.WithReason herodot.ErrInternalServerError
       "Unable to find matching OpenID Connect Credentials.")
    ("Unable to find credentials that match the given provider "
     +:+ dquote +:+ pid +:+ dquote +:+ " and subject "
     +:+ dquote +:+ subject +:+ dquote +:+ "."))).

Section Strategy.
Variable s : Strategy.

(** What [processLogin] returns: a [*registration.Flow] and an [error]. *)
Definition processLoginResult : Type :=
  (option registration.Flow * option error)%type.

(** [func (s *Strategy) processLogin(w, r, a, token, claims, provider,
    container)]; the request [r] is the one of the world. *)
Definition processLogin (a : login.Flow) (token : option oauth2.Token)
    (claims : Claims) (provider : Provider)
    (container : option authCodeContainer)
  : M processLoginResult processLoginResult :=
  let pid := Configuration.ID (Config provider) in
  let identifier := OIDCUniqueID s pid (Subject claims) in
  res ← call (CallFindByCredentialsIdentifier identity.CredentialsTypeOIDC identifier)
             (FindByCredentialsIdentifier (d s) identity.CredentialsTypeOIDC identifier);
  '(i, c) ← match res with
            | inl ic => mret ic
            | inr err =>
                if errors.Is err sqlcon.ErrNoRows then
                  call (CallLoggerDebug pid (Subject claims) notRegistered) ();;
                  (* If return_to was set before, we need to preserve it. *)
                  let opts :=
                    if decide (0 < String.length (login.ReturnTo a))
                    then [registration.WithFlowReturnTo (login.ReturnTo a)]
                    else [] in
                  r ← getRequest;
                  let query := url.Query (http.URL r) in
                  let query := url.Set_ query "return_to" (login.ReturnTo a) in
                  let r := http.withURL r (url.withRawQuery (http.URL r) (url.Encode query)) in
                  setRequest r;;
                  res ← call (CallNewRegistrationFlow r flow.TypeBrowser opts)
                             (NewRegistrationFlow (d s) r flow.TypeBrowser opts);
                  aa ← match res with
                       | inl aa => mret aa
                       | inr err =>
                           err ← handleError a pid None err;
                           Return (None, Some err)
                       end;
                  requestURL ←
                    match TakeOverReturnToParameter s (login.RequestURL a)
                            (registration.RequestURL aa) with
                    | inl u => mret u
                    | inr err =>
                        err ← handleError a pid None err;
                        Return (None, Some err)
                    end;
                  let aa := registration.withRequestURL aa requestURL in
                  err ← call (CallProcessRegistration r aa token claims provider container)
                             (processRegistration s r aa token claims provider container);
                  match err with
                  | Some err => Return (Some aa, Some err)
                  | None => Return (None, None)
                  end
                else
                  err ← handleError a pid None err;
                  Return (None, Some err)
            end;
  o ← match decodeCredentialsOIDC s (identity.Config c) with
      | inl o => mret o
      | inr err =>
          err ← handleError a pid None
                  (WithStack (Herodot (herodot.WithDebug
                     (herodot.WithReason herodot.ErrInternalServerError
                        "The password credentials could not be decoded properly")
                     (Error s err))));
          Return (None, Some err)
      end;
  let sess := session.NewInactiveSession in
  let sess := session.CompletedLoginFor sess (ID s) identity.AuthenticatorAssuranceLevel1 in
  forEach (identity.Providers o) (λ c,
    if decide (identity.Subject c = Subject claims ∧ identity.Provider c = pid) then
      r ← getRequest;
      err ← call (CallPostLoginHook r node.OpenIDConnectGroup a i sess)
                 (PostLoginHook (d s) r node.OpenIDConnectGroup a i sess);
      match err with
      | Some err =>
          err ← handleError a pid None err;
          Return (None, Some err)
      | None => Return (None, None)
      end
    else mret ());;
  err ← handleError a pid None (credentialsMismatch pid (Subject claims));
  mret (None, Some err).

(** What [Login] returns, [(i *identity.Identity, err error)], next to
    the flow [*f] as the call leaves it. *)
Definition LoginResult : Type :=
  (login.Flow * (option identity.Identity * option error))%type.

(** [func (s *Strategy) Login(w, r, f, identityID) (i, err)]. *)
Definition Login (f : login.Flow) (identityID : uuid.UUID)
  : M LoginResult LoginResult :=
  match CheckAAL s f identity.AuthenticatorAssuranceLevel1 with
  | Some err => Return (f, (None, Some err))
  | None => mret ()
  end;;
  r ← getRequest;
  '(p, pid, idToken) ←
    (if decide (login.Type_ f = flow.TypeBrowser) then
       res ← call (CallNewLinkDecoder r) (newLinkDecoder s r);
       match res with
       | inr err =>
           err ← handleError f "" None
                   (WithStack (Herodot (herodot.WithReason
                      (herodot.WithDebug herodot.ErrBadRequest (Error s err))
                      ("Unable to parse HTTP form request: " +:+ Error s err))));
           Return (f, (None, Some err))
       | inl p =>
           (* this can come from both url query and post body *)
           mret (p, UpdateLoginFlowWithOidcMethod.Provider p, "")
       end
     else
       err ← call (CallMethodEnabledAndAllowedFromRequest r (ID s))
                  (MethodEnabledAndAllowedFromRequest (d s) r (ID s));
       match err with
       | Some err => Return (f, (None, Some err))
       | None => mret ()
       end;;
       res ← call (CallDecode r) (Decode s r);
       match res with
       | inr err =>
           err ← handleError f "" None err;
           Return (f, (None, Some err))
       | inl p =>
           mret (p, UpdateLoginFlowWithOidcMethod.Provider p,
                    UpdateLoginFlowWithOidcMethod.IDToken p)
       end);
  (if decide (pid = "")
   then Return (f, (None, Some (WithStack ErrStrategyNotResponsible)))
   else mret ());;
  err ← call (CallMethodEnabledAndAllowed (SettingsStrategyID s) (SettingsStrategyID s))
             (MethodEnabledAndAllowed (d s) (SettingsStrategyID s) (SettingsStrategyID s));
  match err with
  | Some err => err ← handleError f pid None err; Return (f, (None, Some err))
  | None => mret ()
  end;;
  res ← call (CallProvider r pid) (oidc.provider s r pid);
  provider ← match res with
             | inl provider => mret provider
             | inr err => err ← handleError f pid None err; Return (f, (None, Some err))
             end;
  res ← call (CallOAuth2 provider) (OAuth2 s provider);
  c ← match res with
      | inl c => mret c
      | inr err => err ← handleError f pid None err; Return (f, (None, Some err))
      end;
  res ← call (CallValidateFlow r (login.ID f)) (validateFlow s r (login.ID f));
  req ← match res with
        | inl req => mret req
        | inr err => err ← handleError f pid None err; Return (f, (None, Some err))
        end;
  authenticated ← call (CallAlreadyAuthenticated r req) (alreadyAuthenticated s r req);
  (if authenticated : bool then Return (f, (None, None)) else mret ());;
  let state := generateState s (uuid.String_ (login.ID f)) in
  if decide (login.Type_ f = flow.TypeBrowser) then
    let payload :=
      {| State := state; FlowID := uuid.String_ (login.ID f);
         Traits := UpdateLoginFlowWithOidcMethod.Traits p |} in
    err ← call (CallPause r (sessionName s) payload (time.Minute * 30)%Z)
               (Pause (d s) r (sessionName s) payload (time.Minute * 30)%Z);
    match err with
    | Some err => err ← handleError f pid None err; Return (f, (None, Some err))
    | None => mret ()
    end;;
    let f := login.withActive f (ID s) in
    err ← call (CallUpdateLoginFlow f) (UpdateLoginFlow (d s) f);
    match err with
    | Some err =>
        err ← handleError f pid None
                (WithStack (Herodot (herodot.WithDebug
                   (herodot.WithReason herodot.ErrInternalServerError
                      "Could not update flow")
                   (Error s err))));
        Return (f, (None, Some err))
    | None => mret ()
    end;;
    up ← match decodeUpstreamParameters s
                 (UpdateLoginFlowWithOidcMethod.UpstreamParameters p) with
         | inl up => mret up
         | inr err => Return (f, (None, Some err))
         end;
    let codeURL :=
      AuthCodeURL s c state
        (AuthCodeURLOptions s provider req ++ UpstreamParameters s provider up) in
    (if IsJSONRequest s r
     then call (CallWriteError r (BrowserLocationChangeRequiredError codeURL)) ()
     else call (CallRedirect r codeURL http.StatusSeeOther) ());;
    Return (f, (None, Some (WithStack ErrCompletedByStrategy)))
  else if decide (login.Type_ f = flow.TypeAPI) then
    claims ←
      (if isAPIFlowProvider s provider then
         if decide (0 < String.length idToken) then
           res ← call (CallClaimsFromIDToken provider idToken)
                      (ClaimsFromIDToken s provider idToken);
           match res with
           | inl claims => mret claims
           | inr err => Return (f, (None, Some (WithStack err)))
           end
         else
           err ← handleError f (UpdateLoginFlowWithOidcMethod.Provider p) None
                   ErrIDTokenMissing;
           Return (f, (None, Some err))
       else
         err ← handleError f (UpdateLoginFlowWithOidcMethod.Provider p) None
                 ErrProviderNoAPISupport;
         Return (f, (None, Some err)));
    let identifier :=
      OIDCUniqueID s (Configuration.ID (Config provider)) (Subject claims) in
    res ← call (CallFindByCredentialsIdentifier identity.CredentialsTypeOIDC identifier)
               (FindByCredentialsIdentifier (d s) identity.CredentialsTypeOIDC identifier);
    match res with
    | inr err =>
        if errors.Is err sqlcon.ErrNoRows then
          err ← handleError f (UpdateLoginFlowWithOidcMethod.Provider p) None
                  UserNotFoundError;
          Return (f, (None, Some err))
        else Return (f, (None, Some err))
    | inl (i, _) => Return (f, (Some i, None))
    end
  else
    Return (f, (None, Some (WithStack
              (New ("Not supported flow type: " +:+ login.Type_ f))))).

End Strategy.

(** *** Vocabulary for the paths through [processLogin] and [Login] *)

(** [sub] occurs in [text]. *)
Definition occurs (sub text : string) : Prop :=
  ∃ before after, text = before +:+ sub +:+ after.

Section processLogin_paths.
Variable s : Strategy.
Variables (a : login.Flow) (claims : Claims) (provider : Provider).

Let pid := Configuration.ID (Config provider).

(** The request as [processLogin] leaves it on the way to registration:
    its query has [return_to] set to the [ReturnTo] of the login flow. *)
Definition returning (r : http.Request) : http.Request :=
  http.withURL r
    (url.withRawQuery (http.URL r)
       (url.Encode (url.Set_ (url.Query (http.URL r)) "return_to" (login.ReturnTo a)))).

(** An entry of the credentials links the asserted provider and subject. *)
Definition linked (c : identity.CredentialsOIDCProvider) : Prop :=
  identity.Subject c = Subject claims ∧ identity.Provider c = pid.

(** The session [processLogin] hands to the post-login hook. *)
Definition loginSession : session.Session :=
  session.CompletedLoginFor session.NewInactiveSession (ID s)
    identity.AuthenticatorAssuranceLevel1.

End processLogin_paths.

Section Login_paths.
Variables (s : Strategy) (f : login.Flow) (w : World).

Let r := request w.

(** The start of [Login] up to the decoded payload [p]: the flow asks
    for the first assurance level and the payload decodes, through the
    link decoder for a browser flow, and for any other flow through the
    schema-validating decoder once the method is enabled for the
    request. *)
Definition decodes (p : UpdateLoginFlowWithOidcMethod.t) : Prop :=
  CheckAAL s f identity.AuthenticatorAssuranceLevel1 = None
  ∧ if decide (login.Type_ f = flow.TypeBrowser)
    then newLinkDecoder s r = inl p
    else MethodEnabledAndAllowedFromRequest (d s) r (ID s) = None
         ∧ Decode s r = inl p.

Definition decoding : list Event :=
  if decide (login.Type_ f = flow.TypeBrowser) then [CallNewLinkDecoder r]
  else [CallMethodEnabledAndAllowedFromRequest r (ID s); CallDecode r].

(** The flow reaches the branch on its type: the payload names a
    provider, the method is enabled, the provider resolves and hands out
    its OAuth2 client, the flow validates and the request is not yet
    authenticated. *)
Definition reachesBranch (p : UpdateLoginFlowWithOidcMethod.t)
    (provider : Provider) (c : oauth2.Config) (req : ider) : Prop :=
  decodes p
  ∧ UpdateLoginFlowWithOidcMethod.Provider p ≠ ""
  ∧ MethodEnabledAndAllowed (d s) (SettingsStrategyID s) (SettingsStrategyID s) = None
  ∧ oidc.provider s r (UpdateLoginFlowWithOidcMethod.Provider p) = inl provider
  ∧ OAuth2 s provider = inl c
  ∧ validateFlow s r (login.ID f) = inl req
  ∧ alreadyAuthenticated s r req = false.

(** The calls made on the way to the branch. *)
Definition start (p : UpdateLoginFlowWithOidcMethod.t) (provider : Provider)
    (req : ider) : list Event :=
  decoding ++ [
    CallMethodEnabledAndAllowed (SettingsStrategyID s) (SettingsStrategyID s);
    CallProvider r (UpdateLoginFlowWithOidcMethod.Provider p);
    CallOAuth2 provider;
    CallValidateFlow r (login.ID f);
    CallAlreadyAuthenticated r req ].

(** A call that resolves a provider, and a call on a resolved provider. *)
Definition resolvesProvider (e : Event) : bool :=
  match e with CallProvider _ _ => true | _ => false end.

Definition callsProvider (e : Event) : bool :=
  match e with CallOAuth2 _ | CallClaimsFromIDToken _ _ => true | _ => false end.

Definition verifiesIDToken (e : Event) : bool :=
  match e with CallClaimsFromIDToken _ _ => true | _ => false end.

Definition startsRegistration (e : Event) : bool :=
  match e with
  | CallNewRegistrationFlow _ _ _ | CallProcessRegistration _ _ _ _ _ _ => true
  | _ => false
  end.

(** The payload the browser branch pauses. *)
Definition paused (p : UpdateLoginFlowWithOidcMethod.t) : authCodeContainer :=
  {| State := generateState s (uuid.String_ (login.ID f));
     FlowID := uuid.String_ (login.ID f);
     Traits := UpdateLoginFlowWithOidcMethod.Traits p |}.

(** The answer of the browser branch: the authorization URL, as an error
    body for a JSON request and as a redirect otherwise. *)
Definition respond (provider : Provider) (c : oauth2.Config) (req : ider)
    (up : gmap string string) : Event :=
  let codeURL :=
    AuthCodeURL s c (generateState s (uuid.String_ (login.ID f)))
      (AuthCodeURLOptions s provider req ++ UpstreamParameters s provider up) in
  if IsJSONRequest s r
  then CallWriteError r (BrowserLocationChangeRequiredError codeURL)
  else CallRedirect r codeURL http.StatusSeeOther.

End Login_paths.

End oidc.

(** ** A concrete deployment

    One provider, ["google"], and collaborators that answer as a healthy
    deployment does. The knobs are what the statements below vary: whether
    the identity pool knows the subject (and with which links), the decoded
    payload, whether the provider verifies ID tokens itself, and whether the
    request is already authenticated. *)

Module scenario.
Import oidc.

(** A verification flow and a URL that already carries a [flow] parameter
    and has two values for the key [z]. *)
Definition flow7 : flow.ContinueWithVerificationUI.t :=
  flow.NewContinueWithVerificationUI
    (ascii_of_nat <$> [18; 52; 86; 120; 154; 188; 222; 240; 1; 35; 69; 103; 137; 171; 205; 239])
    "user@example.org".

Definition verifyURL : url.URL :=
  {| url.Scheme := "https"; url.Opaque := ""; url.Host := "example.org";
     url.Path := "/verify"; url.RawPath := "";
     url.RawQuery := "z=1&z=2&y=3&flow=old&flow=older"; url.Fragment := "" |}.


Definition google : Configuration.t :=
  {| Configuration.ID := "google"; Configuration.Provider := "google";
     Configuration.Label := "Google"; Configuration.ClientID := "client";
     Configuration.ClientSecret := "secret"; Configuration.IssuerURL := "";
     Configuration.AuthURL := "https://accounts.example.com/o/oauth2/auth";
     Configuration.TokenURL := "https://accounts.example.com/o/oauth2/token";
     Configuration.Tenant := ""; Configuration.SubjectSource := "";
     Configuration.TeamId := ""; Configuration.PrivateKeyId := "";
     Configuration.PrivateKey := ""; Configuration.Scope := ["openid"];
     Configuration.Mapper := "file:///etc/config/google.jsonnet";
     Configuration.RequestedClaims := "" |}.

Definition collection : ConfigurationCollection.t :=
  {| ConfigurationCollection.BaseRedirectURI := "https://id.example.org";
     ConfigurationCollection.Providers := [google] |}.

(** A configuration of a kind that has no constructor, and a collection
    that holds it. *)
Definition corp : Configuration.t :=
  {| Configuration.ID := "corp"; Configuration.Provider := "okta";
     Configuration.Label := "Corporate"; Configuration.ClientID := "client";
     Configuration.ClientSecret := "secret";
     Configuration.IssuerURL := "https://corp.example.com";
     Configuration.AuthURL := ""; Configuration.TokenURL := "";
     Configuration.Tenant := ""; Configuration.SubjectSource := "";
     Configuration.TeamId := ""; Configuration.PrivateKeyId := "";
     Configuration.PrivateKey := ""; Configuration.Scope := ["openid"];
     Configuration.Mapper := "file:///etc/config/corp.jsonnet";
     Configuration.RequestedClaims := "" |}.

Definition mixedCollection : ConfigurationCollection.t :=
  {| ConfigurationCollection.BaseRedirectURI := "https://id.example.org";
     ConfigurationCollection.Providers := [google; corp] |}.

Definition alice : identity.Identity :=
  {| identity.ID := ascii_of_nat <$> [1; 1; 1; 1; 1; 1; 1; 1; 1; 1; 1; 1; 1; 1; 1; 1];
     identity.SchemaID := "default"; identity.Traits := "{}" |}.

Definition credentials : identity.Credentials :=
  {| identity.Type_ := identity.CredentialsTypeOIDC;
     identity.Identifiers := ["google:sub-123"];
     identity.Config := "stored" |}.

Definition link (provider subject : string) : identity.CredentialsOIDCProvider :=
  {| identity.Subject := subject; identity.Provider := provider;
     identity.InitialIDToken := ""; identity.InitialAccessToken := "";
     identity.InitialRefreshToken := "" |}.

Definition deps (known : option (list identity.CredentialsOIDCProvider))
  : dependencies :=
  {| FindByCredentialsIdentifier := λ _ _,
       match known with
       | Some _ => inl (alice, credentials)
       | None => inr (WithStack sqlcon.ErrNoRows)
       end;
     NewRegistrationFlow := λ r ft opts,
       inl {| registration.ID :=
                ascii_of_nat <$> [2; 2; 2; 2; 2; 2; 2; 2; 2; 2; 2; 2; 2; 2; 2; 2];
              registration.Type_ := ft;
              registration.RequestURL :=
                "https://id.example.org/self-service/registration/browser";
              registration.ReturnTo :=
                match opts with
                | registration.WithFlowReturnTo x :: _ => x
                | [] => ""
                end;
              registration.Active := "" |};
     PostLoginHook := λ _ _ _ _ _, None;
     Pause := λ _ _ _ _, None;
     UpdateLoginFlow := λ _, None;
     MethodEnabledAndAllowedFromRequest := λ _ _, None;
     MethodEnabledAndAllowed := λ _ _, None |}.

(** The take-over of the deployment, for a target URL that has no query
    yet: the [return_to] of the query of [from], when it has one, becomes
    the query of [to]. *)
Definition takeOver (from to : string) : string + error :=
  let returnTo := url.Get (url.ParseQuery (url.Cut from "?").2) "return_to" in
  if String.eqb returnTo "" then inl to
  else inl (to +:+ "?" +:+ url.Encode (url.Set_ ∅ "return_to" returnTo)).

Definition strategy (known : option (list identity.CredentialsOIDCProvider))
    (payload : UpdateLoginFlowWithOidcMethod.t) (verifiesIDTokens : bool)
    (authenticated : bool) : Strategy :=
  {| d := deps known;
     ID := identity.CredentialsTypeOIDC;
     SettingsStrategyID := "oidc";
     sessionName := "ory_kratos_oidc_auth_code_session";
     Error := λ _, "error";
     OIDCUniqueID := λ provider subject, provider +:+ ":" +:+ subject;
     TakeOverReturnToParameter := takeOver;
     processRegistration := λ _ _ _ _ _ _, None;
     decodeCredentialsOIDC := λ _,
       match known with
       | Some links => inl {| identity.Providers := links |}
       | None => inr (Foreign "EOF")
       end;
     CheckAAL := λ f aal,
       if decide (login.RequestedAAL f = aal) then None
       else Some (WithStack ErrStrategyNotResponsible);
     newLinkDecoder := λ _, inl payload;
     Decode := λ _, inl payload;
     provider := λ _ pid, ConfigurationCollection.Provider id collection pid (deps known);
     OAuth2 := λ p,
       inl {| oauth2.ClientID := Configuration.ClientID (Config p);
              oauth2.ClientSecret := Configuration.ClientSecret (Config p);
              oauth2.AuthURL := Configuration.AuthURL (Config p);
              oauth2.TokenURL := Configuration.TokenURL (Config p);
              oauth2.RedirectURL := "https://id.example.org/self-service/methods/oidc/callback/google";
              oauth2.Scopes := Configuration.Scope (Config p) |};
     validateFlow := λ _ rid, inl {| GetID := rid |};
     alreadyAuthenticated := λ _ _, authenticated;
     generateState := λ flowID, flowID +:+ ":nonce";
     decodeUpstreamParameters := λ raw,
       if String.eqb raw "{}" then inl ∅
       else inr (Foreign "json: cannot unmarshal into Go value of type map[string]string");
     AuthCodeURL := λ c state _, oauth2.AuthURL c +:+ "?state=" +:+ state;
     AuthCodeURLOptions := λ _ _, [];
     UpstreamParameters := λ _ _, [];
     IsJSONRequest := λ _, false;
     isAPIFlowProvider := λ _, verifiesIDTokens;
     ClaimsFromIDToken := λ _ _, inl {| Subject := "sub-123"; Attributes := ∅ |} |}.

Definition payload (provider upstream idToken : string)
  : UpdateLoginFlowWithOidcMethod.t :=
  {| UpdateLoginFlowWithOidcMethod.Provider := provider;
     UpdateLoginFlowWithOidcMethod.CSRFToken := "csrf";
     UpdateLoginFlowWithOidcMethod.Method := "oidc";
     UpdateLoginFlowWithOidcMethod.Traits := "{}";
     UpdateLoginFlowWithOidcMethod.UpstreamParameters := upstream;
     UpdateLoginFlowWithOidcMethod.IDToken := idToken |}.

Definition loginFlow (type : flow.Type_) : login.Flow :=
  {| login.ID := ascii_of_nat <$> [3; 3; 3; 3; 3; 3; 3; 3; 3; 3; 3; 3; 3; 3; 3; 3];
     login.Type_ := type;
     login.RequestURL := "https://id.example.org/self-service/login/browser?return_to=https%3A%2F%2Fapp.example.org";
     login.ReturnTo := "https://app.example.org";
     login.Active := "";
     login.RequestedAAL := identity.AuthenticatorAssuranceLevel1;
     login.Refresh := false |}.

(** That flow with this strategy as its active method. *)
Definition activeFlow (type : flow.Type_) : login.Flow :=
  {| login.ID := ascii_of_nat <$> [3; 3; 3; 3; 3; 3; 3; 3; 3; 3; 3; 3; 3; 3; 3; 3];
     login.Type_ := type;
     login.RequestURL := "https://id.example.org/self-service/login/browser?return_to=https%3A%2F%2Fapp.example.org";
     login.ReturnTo := "https://app.example.org";
     login.Active := "oidc";
     login.RequestedAAL := identity.AuthenticatorAssuranceLevel1;
     login.Refresh := false |}.

Definition world : World :=
  {| trace := [];
     request :=
       {| http.Method := "POST";
          http.URL :=
            {| url.Scheme := "https"; url.Opaque := ""; url.Host := "id.example.org";
               url.Path := "/self-service/login"; url.RawPath := "";
               url.RawQuery := "flow=03030303-0303-0303-0303-030303030303";
               url.Fragment := "" |};
          http.Body := "provider=google" |} |}.

Definition claims : Claims := {| Subject := "sub-123"; Attributes := ∅ |}.

Definition googleProvider (known : option (list identity.CredentialsOIDCProvider))
  : Provider :=
  NewProviderGoogle google (deps known).

(** The registration flow the registration handler of [deps] creates for
    the login flow above. *)
Definition registrationFlow : registration.Flow :=
  {| registration.ID :=
       ascii_of_nat <$> [2; 2; 2; 2; 2; 2; 2; 2; 2; 2; 2; 2; 2; 2; 2; 2];
     registration.Type_ := flow.TypeBrowser;
     registration.RequestURL :=
       "https://id.example.org/self-service/registration/browser";
     registration.ReturnTo := "https://app.example.org";
     registration.Active := "" |}.

(** That flow once the [return_to] of the login flow's request URL is
    taken over to its request URL. *)
Definition continuedFlow : registration.Flow :=
  {| registration.ID :=
       ascii_of_nat <$> [2; 2; 2; 2; 2; 2; 2; 2; 2; 2; 2; 2; 2; 2; 2; 2];
     registration.Type_ := flow.TypeBrowser;
     registration.RequestURL :=
       "https://id.example.org/self-service/registration/browser?return_to=https%3A%2F%2Fapp.example.org";
     registration.ReturnTo := "https://app.example.org";
     registration.Active := "" |}.

(** The token of the provider and the container the continuity channel
    hands back on the callback. *)
Definition token : oauth2.Token :=
  {| oauth2.AccessToken := "ya29.access"; oauth2.TokenType := "Bearer";
     oauth2.RefreshToken := "1//refresh" |}.

Definition container : authCodeContainer :=
  {| State := "03030303-0303-0303-0303-030303030303:nonce";
     FlowID := "03030303-0303-0303-0303-030303030303";
     Traits := "{}" |}.

(** The subject is not known to the identity pool. *)
Definition unknownUser : Strategy :=
  strategy None (payload "google" "{}" "") false false.

(** The subject is known and linked to ["google"]. *)
Definition knownUser : Strategy :=
  strategy (Some [link "github" "sub-123"; link "google" "sub-123"])
    (payload "google" "{}" "") false false.

(** The subject is found by its identifier, but the stored credentials
    link other subjects only. *)
Definition mismatchedUser : Strategy :=
  strategy (Some [link "github" "sub-123"; link "google" "sub-999"])
    (payload "google" "{}" "") false false.


(** The OAuth2 client of the ["google"] provider. *)
Definition googleClient : oauth2.Config :=
  {| oauth2.ClientID := "client"; oauth2.ClientSecret := "secret";
     oauth2.AuthURL := "https://accounts.example.com/o/oauth2/auth";
     oauth2.TokenURL := "https://accounts.example.com/o/oauth2/token";
     oauth2.RedirectURL := "https://id.example.org/self-service/methods/oidc/callback/google";
     oauth2.Scopes := ["openid"] |}.

(** No provider was picked in the form. *)
Definition noProviderChosen : Strategy :=
  strategy None (payload "" "{}" "") false false.

(** The upstream parameters that were submitted are not a JSON object of
    strings. *)
Definition undecodableUpstream : Strategy :=
  strategy None (payload "google" "[1]" "") false false.

(** A native flow against a provider that verifies ID tokens, without and
    with an ID token; the subject of the token is not known to the pool. *)
Definition nativeNoToken : Strategy :=
  strategy None (payload "google" "{}" "") true false.

Definition nativeWithToken : Strategy :=
  strategy None (payload "google" "{}" "eyJhbGciOi.eyJzdWIiOi.c2ln") true false.

End scenario.

(** ** Runs and their calls *)

Module runs.
Import oidc.

(** The calls a run of a function body adds to the trace, and its result. *)
Definition calls {R} (body : M R R) (w : World) : list Event :=
  drop (length (trace w)) (trace (run body w).2).

Definition result {R} (body : M R R) (w : World) : R := (run body w).1.

(** Kinds of calls. *)
Definition pauses (e : Event) : bool :=
  match e with CallPause _ _ _ _ => true | _ => false end.

Definition persists (e : Event) : bool :=
  match e with CallUpdateLoginFlow _ => true | _ => false end.

(** The calls that write the response: the redirect and the error body. *)
Definition answers (e : Event) : bool :=
  match e with CallRedirect _ _ _ | CallWriteError _ _ => true | _ => false end.

Definition looksUp (e : Event) : bool :=
  match e with CallFindByCredentialsIdentifier _ _ => true | _ => false end.

Definition runsHook (e : Event) : bool :=
  match e with CallPostLoginHook _ _ _ _ _ => true | _ => false end.

Definition annotates (e : Event) : bool :=
  match e with CallHandleError _ _ _ _ _ => true | _ => false end.

(** The collaborator a call goes to. *)
Definition collaborator (e : Event) : nat :=
  match e with
  | CallFindByCredentialsIdentifier _ _ => 0
  | CallLoggerDebug _ _ _ => 1
  | CallNewRegistrationFlow _ _ _ => 2
  | CallProcessRegistration _ _ _ _ _ _ => 3
  | CallPostLoginHook _ _ _ _ _ => 4
  | CallHandleError _ _ _ _ _ => 5
  | CallNewLinkDecoder _ => 6
  | CallMethodEnabledAndAllowedFromRequest _ _ => 7
  | CallDecode _ => 8
  | CallMethodEnabledAndAllowed _ _ => 9
  | CallProvider _ _ => 10
  | CallOAuth2 _ => 11
  | CallValidateFlow _ _ => 12
  | CallAlreadyAuthenticated _ _ => 13
  | CallPause _ _ _ _ => 14
  | CallUpdateLoginFlow _ => 15
  | CallWriteError _ _ => 16
  | CallRedirect _ _ _ => 17
  | CallClaimsFromIDToken _ _ => 18
  end.

(** The flow reaches the check for an existing session, and the request
    turns out to be authenticated already. *)
Definition signedIn (s : Strategy) (f : login.Flow) (w : World)
    (p : UpdateLoginFlowWithOidcMethod.t) (provider : Provider)
    (c : oauth2.Config) (req : ider) : Prop :=
  decodes s f w p
  ∧ UpdateLoginFlowWithOidcMethod.Provider p ≠ ""
  ∧ MethodEnabledAndAllowed (d s) (SettingsStrategyID s) (SettingsStrategyID s) = None
  ∧ oidc.provider s (request w) (UpdateLoginFlowWithOidcMethod.Provider p) = inl provider
  ∧ OAuth2 s provider = inl c
  ∧ validateFlow s (request w) (login.ID f) = inl req
  ∧ alreadyAuthenticated s (request w) req = true.

#[global] Instance linked_dec claims provider c : Decision (linked claims provider c).
Proof. unfold linked. apply _. Defined.

End runs.
(** ** Collaborators that fail *)

Module faults.
Import oidc.

Inductive fault : Type :=
| LookupFails | RegistrationFlowFails | TakeOverFails | RegistrationFails
| CredentialsDecodeFails | HookFails | PauseFails | UpdateFails | ClaimsFail.

(** The strategy [s] with one collaborator made to fail. *)
Definition inject (x : fault) (s : Strategy) : Strategy :=
  {| d :=
       {| FindByCredentialsIdentifier := λ ct identifier,
            if x is LookupFails then inr (Foreign "sql: connection is already closed")
            else FindByCredentialsIdentifier (d s) ct identifier;
          NewRegistrationFlow := λ r ft opts,
            if x is RegistrationFlowFails then inr (Foreign "registration is disabled")
            else NewRegistrationFlow (d s) r ft opts;
          PostLoginHook := λ r g a i sess,
            if x is HookFails then Some (Foreign "hook rejected the login")
            else PostLoginHook (d s) r g a i sess;
          Pause := λ r name payload lifespan,
            if x is PauseFails then Some (Foreign "continuity: could not persist")
            else Pause (d s) r name payload lifespan;
          UpdateLoginFlow := λ f,
            if x is UpdateFails then Some (Foreign "sql: connection is already closed")
            else UpdateLoginFlow (d s) f;
          MethodEnabledAndAllowedFromRequest :=
            MethodEnabledAndAllowedFromRequest (d s);
          MethodEnabledAndAllowed := MethodEnabledAndAllowed (d s) |};
     ID := ID s;
     SettingsStrategyID := SettingsStrategyID s;
     sessionName := sessionName s;
     Error := Error s;
     OIDCUniqueID := OIDCUniqueID s;
     TakeOverReturnToParameter := λ from to,
       if x is TakeOverFails then inr (Foreign "parse: invalid URL escape")
       else TakeOverReturnToParameter s from to;
     processRegistration := λ r rf token claims provider container,
       if x is RegistrationFails then Some (Foreign "traits do not validate")
       else processRegistration s r rf token claims provider container;
     decodeCredentialsOIDC := λ raw,
       if x is CredentialsDecodeFails then inr (Foreign "unexpected end of JSON input")
       else decodeCredentialsOIDC s raw;
     CheckAAL := CheckAAL s;
     newLinkDecoder := newLinkDecoder s;
     Decode := Decode s;
     provider := provider s;
     OAuth2 := OAuth2 s;
     validateFlow := validateFlow s;
     alreadyAuthenticated := alreadyAuthenticated s;
     generateState := generateState s;
     decodeUpstreamParameters := decodeUpstreamParameters s;
     AuthCodeURL := AuthCodeURL s;
     AuthCodeURLOptions := AuthCodeURLOptions s;
     UpstreamParameters := UpstreamParameters s;
     IsJSONRequest := IsJSONRequest s;
     isAPIFlowProvider := isAPIFlowProvider s;
     ClaimsFromIDToken := λ provider idToken,
       if x is ClaimsFail then inr (Foreign "oidc: id token is expired")
       else ClaimsFromIDToken s provider idToken |}.

End faults.

(** ** Further cases of the concrete deployment *)

Module cases.
Import oidc scenario.

(** The request carries a session already. *)
Definition signedInUser : Strategy :=
  strategy None (payload "google" "{}" "") false true.

(** A native flow with an ID token whose subject the pool knows. *)
Definition nativeKnownUser : Strategy :=
  strategy (Some [link "google" "sub-123"])
    (payload "google" "{}" "eyJhbGciOi.eyJzdWIiOi.c2ln") true false.

(** A flow of a type that is neither of the two. *)
Definition deviceFlow : login.Flow := loginFlow "device".

(** A second verification flow. *)
Definition flow9 : flow.ContinueWithVerificationUI.t :=
  flow.NewContinueWithVerificationUI
    (ascii_of_nat <$> [9; 9; 9; 9; 9; 9; 9; 9; 9; 9; 9; 9; 9; 9; 9; 9])
    "other@example.org".

End cases.

(** ** Characters and documented kinds *)

Module text.

(** Every byte of [s] satisfies [P]. *)
Fixpoint allBytes (P : ascii → bool) (s : string) : bool :=
  match s with
  | "" => true
  | String c s' => P c && allBytes P s'
  end.

(** The bytes [url.QueryEscape] leaves alone. *)
Definition unreserved (c : ascii) : bool := negb (url.shouldEscape c).

End text.

Module documented.

(** The provider kinds the comment on [Configuration.Provider] lists. *)
Definition kinds : list string :=
  [ "generic"; "google"; "github"; "github-app"; "gitlab"; "microsoft";
    "discord"; "slack"; "facebook"; "auth0"; "vk"; "yandex"; "apple";
    "spotify"; "netid"; "dingtalk"; "linkedin"; "patreon" ].

End documented.

(** ** The generated client model
    ([internal/httpclient/model_continue_with_verification_ui_flow.go]) *)

Module client.

(** [type ContinueWithVerificationUIFlow struct]. *)
Record ContinueWithVerificationUIFlow : Type := mk {
  Id : string;
  VerifiableAddress : string;
}.

(** A [*ContinueWithVerificationUIFlow] is [nil] ([None]) or an address in
    a store of struct values; dereferencing [nil] or an address the store
    does not map panics ([None] as a result). *)
Abbreviation store := (gmap positive ContinueWithVerificationUIFlow).
Abbreviation pointer := (option positive) (only parsing).

(** A [*string] that addresses a field of a struct in the store. *)
Inductive field : Type := FieldId | FieldVerifiableAddress.
Definition stringPointer : Type := option (positive * field).

(** Reading through a [*string]. *)
Definition load (p : stringPointer) (h : store) : option string :=
  match p with
  | Some (a, FieldId) => Id <$> h !! a
  | Some (a, FieldVerifiableAddress) => VerifiableAddress <$> h !! a
  | None => None
  end.

(** [func NewContinueWithVerificationUIFlow(id, verifiableAddress string)
    *ContinueWithVerificationUIFlow]: [this] escapes, so it is allocated
    in the store. *)
Definition NewContinueWithVerificationUIFlow (id verifiableAddress : string)
    (h : store) : positive * store :=
  let this := {| Id := ""; VerifiableAddress := "" |} in
  let this := {| Id := id; VerifiableAddress := VerifiableAddress this |} in
  let this := {| Id := Id this; VerifiableAddress := verifiableAddress |} in
  (fresh (dom h), <[fresh (dom h) := this]> h).

(** [func NewContinueWithVerificationUIFlowWithDefaults()
    *ContinueWithVerificationUIFlow]. *)
Definition NewContinueWithVerificationUIFlowWithDefaults (h : store)
  : positive * store :=
  let this := {| Id := ""; VerifiableAddress := "" |} in
  (fresh (dom h), <[fresh (dom h) := this]> h).

(** [func (o *ContinueWithVerificationUIFlow) GetId() string]. *)
Definition GetId (o : pointer) (h : store) : option string :=
  match o with
  | None => let ret := "" in Some ret
  | Some a => Id <$> h !! a
  end.

(** [func (o *ContinueWithVerificationUIFlow) GetIdOk()], which returns a
    [*string] and a [bool]: taking the address of a field reads nothing. *)
Definition GetIdOk (o : pointer) : stringPointer * bool :=
  match o with
  | None => (None, false)
  | Some a => (Some (a, FieldId), true)
  end.

(** [func (o *ContinueWithVerificationUIFlow) SetId(v string)]. *)
Definition SetId (o : pointer) (v : string) (h : store) : option store :=
  a ← o; x ← h !! a;
  Some (<[a := {| Id := v; VerifiableAddress := VerifiableAddress x |}]> h).

(** [func (o *ContinueWithVerificationUIFlow) GetVerifiableAddress() string]. *)
Definition GetVerifiableAddress (o : pointer) (h : store) : option string :=
  match o with
  | None => let ret := "" in Some ret
  | Some a => VerifiableAddress <$> h !! a
  end.

(** [func (o *ContinueWithVerificationUIFlow) GetVerifiableAddressOk()],
    which returns a [*string] and a [bool]. *)
Definition GetVerifiableAddressOk (o : pointer) : stringPointer * bool :=
  match o with
  | None => (None, false)
  | Some a => (Some (a, FieldVerifiableAddress), true)
  end.

(** [func (o *ContinueWithVerificationUIFlow) SetVerifiableAddress(v string)]. *)
Definition SetVerifiableAddress (o : pointer) (v : string) (h : store)
  : option store :=
  a ← o; x ← h !! a;
  Some (<[a := {| Id := Id x; VerifiableAddress := v |}]> h).

(** [type NullableContinueWithVerificationUIFlow struct]. *)
Module Nullable.
Record t : Type := mk {
  value : pointer;
  isSet : bool;
}.

(** The methods with a pointer receiver take the value the receiver
    addresses and return the value they leave there. *)

(** [func (v NullableContinueWithVerificationUIFlow) Get()]. *)
Definition Get (v : t) : pointer := value v.

(** [func (v *NullableContinueWithVerificationUIFlow) Set(val)]. *)
Definition Set_ (v : t) (val : pointer) : t :=
  let v := {| value := val; isSet := isSet v |} in
  {| value := value v; isSet := true |}.

(** [func (v NullableContinueWithVerificationUIFlow) IsSet() bool]. *)
Definition IsSet (v : t) : bool := isSet v.

(** [func (v *NullableContinueWithVerificationUIFlow) Unset()]. *)
Definition Unset (v : t) : t :=
  let v := {| value := None; isSet := isSet v |} in
  {| value := value v; isSet := false |}.
End Nullable.

(** [func NewNullableContinueWithVerificationUIFlow(val)]. *)
Definition NewNullableContinueWithVerificationUIFlow (val : pointer) : Nullable.t :=
  {| Nullable.value := val; Nullable.isSet := true |}.

(** A store with one flow in it. *)
Definition one : store :=
  {[ 1%positive := {| Id := "f-1"; VerifiableAddress := "user@example.org" |} ]}.

End client.

Module url_facts.
Import url.

Ltac each_byte c :=
  destruct c as [[] [] [] [] [] [] [] []].

Lemma QueryUnescape_escapeByte c t :
  QueryUnescape (escapeByte c +:+ t) = String c <$> QueryUnescape t.
Proof. each_byte c; reflexivity. Qed.

Lemma QueryUnescape_QueryEscape s : QueryUnescape (QueryEscape s) = Some s.
Proof.
  induction s as [|c s IH]; [done|].
  cbn [QueryEscape]. by rewrite QueryUnescape_escapeByte, IH.
Qed.

Lemma Contains_app a b sep :
  Contains (a +:+ b) sep = Contains a sep || Contains b sep.
Proof.
  induction a as [|c a IH]; [done|].
  simpl. rewrite IH. by destruct (_ =? _)%char.
Qed.

Lemma Contains_escapeByte c sep :
  separator sep → Contains (escapeByte c) sep = false.
Proof. intros [->|[->| ->]]; each_byte c; reflexivity. Qed.

Lemma Contains_QueryEscape s sep :
  separator sep → Contains (QueryEscape s) sep = false.
Proof.
  intros Hsep. induction s as [|c s IH]; [done|].
  cbn [QueryEscape]. by rewrite Contains_app, Contains_escapeByte, IH.
Qed.

Lemma Cut_app a b sep :
  Contains a sep = false → Cut (a +:+ String sep b) sep = (a, b).
Proof.
  induction a as [|c a IH]; simpl.
  - by rewrite Ascii.eqb_refl.
  - intros [Hc Ha]%orb_false_iff. by rewrite Hc, IH.
Qed.

Lemma pieces_ne query : pieces query ≠ [].
Proof.
  destruct query as [|c q]; cbn [pieces]; [done|].
  destruct (_ =? _)%char; [done|]. by destruct (pieces q).
Qed.

Lemma pieces_single a : Contains a "&" = false → pieces a = [a].
Proof.
  induction a as [|c a IH]; cbn [Contains pieces]; [done|].
  intros [Hc Ha]%orb_false_iff. by rewrite Hc, IH.
Qed.

Lemma pieces_app a b :
  Contains a "&" = false → pieces (a +:+ String "&" b) = a :: pieces b.
Proof.
  induction a as [|c a IH]; simpl; [done|].
  intros [Hc Ha]%orb_false_iff. by rewrite Hc, IH.
Qed.

Lemma pieces_concat ps :
  Forall (λ p, Contains p "&" = false) ps → ps ≠ [] →
  pieces (String.concat "&" ps) = ps.
Proof.
  induction 1 as [|p ps Hp Hps IH]; [done|]. intros _.
  destruct ps as [|p' ps]; cbn [String.concat].
  - by apply pieces_single.
  - change ("&" +:+ ?t) with (String "&" t).
    rewrite pieces_app by done. f_equal. by apply IH.
Qed.

Lemma parsePiece_pair m k x :
  parsePiece m (QueryEscape k +:+ "=" +:+ QueryEscape x)
  = <[k := m !!! k ++ [x]]> m.
Proof.
  unfold parsePiece.
  rewrite Contains_app, Contains_QueryEscape by (right; by right).
  change ("=" +:+ ?t) with (String "=" t).
  cbn [Contains orb]. rewrite Contains_QueryEscape by (right; by right).
  replace (String.eqb _ "") with false by (by destruct (QueryEscape k)).
  cbn [Ascii.eqb orb].
  rewrite Cut_app by (apply Contains_QueryEscape; right; by left).
  by rewrite !QueryUnescape_QueryEscape.
Qed.

Lemma parse_encodeKey_values m k xs :
  foldl parsePiece m ((λ x, QueryEscape k +:+ "=" +:+ QueryEscape x) <$> xs)
  = match xs with [] => m | _ => <[k := m !!! k ++ xs]> m end.
Proof.
  revert m. induction xs as [|x xs IH]; intros m; [done|].
  cbn [fmap list_fmap foldl]. rewrite parsePiece_pair, IH.
  destruct xs as [|x' xs]; [done|].
  rewrite lookup_total_insert_eq, insert_insert_eq. by rewrite <-(assoc_L (++)).
Qed.

Lemma parse_encodeKey v m k :
  foldl parsePiece m (encodeKey v k)
  = match v !!! k with [] => m | xs => <[k := m !!! k ++ xs]> m end.
Proof. unfold encodeKey. rewrite parse_encodeKey_values. by destruct (v !!! k). Qed.

(** Parsing what [Encode] writes for a duplicate-free list of keys. *)
Lemma parse_encodeKeys v ks m k :
  NoDup ks →
  foldl parsePiece m (ks ≫= encodeKey v) !! k
  = if decide (k ∈ ks ∧ v !!! k ≠ []) then Some (m !!! k ++ v !!! k)
    else m !! k.
Proof.
  intros Hnd. revert m.
  induction Hnd as [|k' ks Hk' Hnd IH]; intros m.
  - cbn. case_decide as H; [|done]. destruct H as [H _]. by apply elem_of_nil in H.
  - cbn [mbind list_bind]. rewrite foldl_app, IH, parse_encodeKey.
    destruct (decide (k = k')) as [->|Hne].
    + rewrite decide_False by (intros [? _]; done).
      destruct (v !!! k') as [|x xs] eqn:Hv.
      * rewrite decide_False; [done|]. by intros [_ ?].
      * rewrite decide_True by (split; [left|done]).
        by rewrite lookup_insert_eq.
    + assert (Hiff : k ∈ k' :: ks ∧ v !!! k ≠ [] ↔ k ∈ ks ∧ v !!! k ≠ []).
      { rewrite elem_of_cons. intuition congruence. }
      destruct (v !!! k') as [|x xs] eqn:Hv.
      * by rewrite (decide_ext _ _ _ _ Hiff).
      * rewrite (decide_ext _ _ _ _ Hiff).
        by rewrite lookup_insert_ne, lookup_total_insert_ne.
Qed.

Lemma encodeKey_no_amp v ks :
  Forall (λ p, Contains p "&" = false) (ks ≫= encodeKey v).
Proof.
  apply Forall_forall. intros p (k & Hp & _)%list_elem_of_bind.
  apply list_elem_of_fmap in Hp as (x & -> & _).
  rewrite Contains_app, Contains_QueryEscape by (by left).
  change ("=" +:+ ?t) with (String "=" t). cbn [Contains Ascii.eqb orb].
  apply Contains_QueryEscape. by left.
Qed.

Lemma ParseQuery_concat ps :
  Forall (λ p, Contains p "&" = false) ps →
  ParseQuery (String.concat "&" ps) = foldl parsePiece ∅ ps.
Proof.
  intros Hps. unfold ParseQuery. destruct ps as [|p ps]; [done|].
  by rewrite pieces_concat.
Qed.

(** [ParseQuery] reads back what [Encode] wrote, but for the keys that had
    no value at all, which [Encode] does not write. *)
Lemma lookup_ParseQuery_Encode v k :
  ParseQuery (Encode v) !! k
  = match v !! k with Some (x :: xs) => Some (x :: xs) | _ => None end.
Proof.
  unfold Encode. rewrite ParseQuery_concat by apply encodeKey_no_amp.
  rewrite parse_encodeKeys.
  2:{ rewrite merge_sort_Permutation. apply NoDup_fst_map_to_list. }
  rewrite lookup_total_empty, lookup_empty. cbn [app].
  rewrite lookup_total_alt.
  destruct (v !! k) as [[|x xs]|] eqn:Hk; cbn.
  - rewrite decide_False; [done|]. by intros [_ ?].
  - rewrite decide_True; [done|]. split; [|done].
    rewrite merge_sort_Permutation. apply list_elem_of_fmap.
    exists (k, x :: xs). split; [done|]. by apply elem_of_map_to_list.
  - rewrite decide_False; [done|]. by intros [_ ?].
Qed.

Lemma populated_parsePiece m p : populated m → populated (parsePiece m p).
Proof.
  intros Hm. unfold parsePiece.
  destruct (Contains p ";"); [done|]. destruct (String.eqb p ""); [done|].
  destruct (Cut p "=") as [key value].
  destruct (QueryUnescape key) as [key'|]; [|done].
  destruct (QueryUnescape value) as [value'|]; [|done].
  intros k. destruct (decide (key' = k)) as [->|Hne].
  - rewrite lookup_insert_eq. intros [= H]. by apply app_nil in H as [_ ?].
  - by rewrite lookup_insert_ne.
Qed.

Lemma populated_ParseQuery query : populated (ParseQuery query).
Proof.
  unfold ParseQuery. generalize (pieces query). intros ps.
  assert (H : populated (∅ : Values)) by (intros k; by rewrite lookup_empty).
  revert H. generalize (∅ : Values). induction ps as [|p ps IH]; intros m Hm; [done|].
  cbn [foldl]. by apply IH, populated_parsePiece.
Qed.

Lemma populated_Set v key value : populated v → populated (Set_ v key value).
Proof.
  intros Hv k. unfold Set_. destruct (decide (key = k)) as [->|Hne].
  - by rewrite lookup_insert_eq.
  - by rewrite lookup_insert_ne.
Qed.

Lemma ParseQuery_Encode v : populated v → ParseQuery (Encode v) = v.
Proof.
  intros Hv. apply map_eq. intros k. rewrite lookup_ParseQuery_Encode.
  specialize (Hv k). by destruct (v !! k) as [[|x xs]|].
Qed.
End url_facts.

(** ** [ContinueWith]: the URL augmentations *)

Module flow_facts.
Import url url_facts flow scenario.
Import ContinueWithVerificationUI.

(** *** The loop of [urlx.CopyWithQuery] *)

(** What the loop leaves under a key: the first value [query] has for it,
    alone, when [query] has the key, and what [q] had otherwise. *)
Lemma merged_lookup (q query : Values) k :
  urlx.merged q query !! k
  = match query !! k with
    | Some vs => Some [hd "" vs]
    | None => q !! k
    end.
Proof.
  assert (H : ∀ (m : Values) j,
            map_fold (λ k _ q, Set_ q k (Get query k)) q m !! j
            = match m !! j with
              | Some _ => Some [Get query j]
              | None => q !! j
              end).
  { apply (map_fold_weak_ind
             (λ (r m : Values), ∀ j, r !! j = match m !! j with
                                   | Some _ => Some [Get query j]
                                   | None => q !! j
                                   end)).
    - intros j. by rewrite lookup_empty.
    - intros i x m r Hi IH j. unfold Set_.
      destruct (decide (j = i)) as [->|Hj].
      + by rewrite !lookup_insert_eq.
      + by rewrite !lookup_insert_ne. }
  unfold urlx.merged. rewrite H. unfold Get.
  destruct (query !! k) as [[|x vs]|]; done.
Qed.

(** The first value of every key. *)
Local Abbreviation firsts := (fmap (M := gmap string) (λ vs : list string, [hd "" vs])).

Lemma merged_Set (Q : Values) k x :
  urlx.merged Q (Set_ Q k x) = <[k := [x]]> (firsts Q).
Proof.
  apply map_eq. intros j. rewrite merged_lookup. unfold Set_.
  destruct (decide (j = k)) as [->|Hj].
  - by rewrite !lookup_insert_eq.
  - rewrite !lookup_insert_ne, lookup_fmap by done. by destruct (Q !! j).
Qed.

Lemma populated_firsts (Q : Values) k x : populated (<[k := [x]]> (firsts Q)).
Proof.
  intros j. destruct (decide (j = k)) as [->|Hj].
  - by rewrite lookup_insert_eq.
  - rewrite lookup_insert_ne, lookup_fmap by done. by destruct (Q !! j).
Qed.

Lemma firsts_firsts (Q : Values) : firsts (firsts Q) = firsts Q.
Proof.
  apply map_eq. intros j. rewrite !lookup_fmap. by destruct (Q !! j).
Qed.

(** *** [AppendTo] *)

Lemma AppendTo_allocates c src h u :
  h !! src = Some u →
  AppendTo c src h
  = Some (fresh (dom h), <[fresh (dom h) := augmented c u]> h).
Proof.
  intros Hsrc. unfold AppendTo, urlx.CopyWithQuery, urlx.Copy.
  rewrite Hsrc. cbn.
  rewrite lookup_insert_eq. cbn. by rewrite insert_insert_eq.
Qed.

Lemma fresh_unmapped (h : urlStore) : h !! fresh (dom h) = None.
Proof. apply not_elem_of_dom, is_fresh. Qed.

(** The query of the URL that is written: [flow] has the one value that was
    set, and every other key of the source has the first of its values. *)
Lemma Query_augmented c u :
  Query (augmented c u)
  = <["flow" := [uuid.String_ (ContinueWithVerificationUIFlow.ID (Flow c))]]>
      (firsts (Query u)).
Proof.
  unfold augmented, Query at 1. cbn [RawQuery withRawQuery].
  rewrite merged_Set. apply ParseQuery_Encode, populated_firsts.
Qed.

Lemma augmented_augmented c1 c2 u :
  augmented c2 (augmented c1 u) = augmented c2 u.
Proof.
  unfold augmented at 1. cbn zeta. rewrite merged_Set, Query_augmented.
  rewrite fmap_insert, insert_insert_eq, firsts_firsts.
  unfold augmented. cbn zeta. rewrite !merged_Set. by destruct u.
Qed.

Lemma augmented_idempotent c u : augmented c (augmented c u) = augmented c u.
Proof. apply augmented_augmented. Qed.

(** The second value of [z] and the old values of [flow] are gone. *)
Example AppendTo_verifyURL :
  AppendTo flow7 1%positive {[ 1%positive := verifyURL ]}
  = Some (2%positive,
          <[2%positive :=
              {| Scheme := "https"; Opaque := ""; Host := "example.org";
                 Path := "/verify"; RawPath := "";
                 RawQuery := "flow=12345678-9abc-def0-0123-456789abcdef&y=3&z=1";
                 Fragment := "" |}]>
            {[ 1%positive := verifyURL ]}).
Proof. vm_compute. reflexivity. Qed.

(** C10. [ContinueWithVerificationUI.AppendTo] does not write to the URL it
    is given: it allocates a new URL, and every URL of the store, the
    source among them, is as it was. The new URL is the source with its
    query replaced: in it [flow] has one value, the string form of the
    flow id. *)
Theorem AppendTo_leaves_source_unchanged c src (h : urlStore) u :
  h !! src = Some u →
  ∃ out h' u',
    AppendTo c src h = Some (out, h')
    ∧ h !! out = None
    ∧ out ≠ src
    ∧ h' !! src = Some u
    ∧ (∀ p, p ≠ out → h' !! p = h !! p)
    ∧ h' !! out = Some u'
    ∧ u' = augmented c u
    ∧ (Scheme u', Opaque u', Host u', Path u', RawPath u', Fragment u')
      = (Scheme u, Opaque u, Host u, Path u, RawPath u, Fragment u)
    ∧ Query u' !! "flow"
      = Some [uuid.String_ (ContinueWithVerificationUIFlow.ID (Flow c))].
Proof.
  intros Hsrc.
  exists (fresh (dom h)), (<[fresh (dom h) := augmented c u]> h), (augmented c u).
  pose proof (fresh_unmapped h) as Hfresh.
  assert (Hne : fresh (dom h) ≠ src) by congruence.
  split_and!.
  - by apply AppendTo_allocates.
  - done.
  - done.
  - by rewrite lookup_insert_ne.
  - intros p Hp. by rewrite lookup_insert_ne.
  - by rewrite lookup_insert_eq.
  - done.
  - done.
  - rewrite Query_augmented. apply lookup_insert_eq.
Qed.

Lemma AppendTo_leaves_source_unchanged_witness :
  ∃ out h' u',
    AppendTo flow7 1%positive {[ 1%positive := verifyURL ]} = Some (out, h')
    ∧ ({[ 1%positive := verifyURL ]} : urlStore) !! out = None
    ∧ out ≠ 1%positive
    ∧ h' !! 1%positive = Some verifyURL
    ∧ (∀ p, p ≠ out → h' !! p = ({[ 1%positive := verifyURL ]} : urlStore) !! p)
    ∧ h' !! out = Some u'
    ∧ u' = augmented flow7 verifyURL
    ∧ (Scheme u', Opaque u', Host u', Path u', RawPath u', Fragment u')
      = (Scheme verifyURL, Opaque verifyURL, Host verifyURL, Path verifyURL,
         RawPath verifyURL, Fragment verifyURL)
    ∧ Query u' !! "flow"
      = Some [uuid.String_ (ContinueWithVerificationUIFlow.ID (Flow flow7))].
Proof.
  apply (AppendTo_leaves_source_unchanged flow7 1%positive {[ 1%positive := verifyURL ]}
           verifyURL).
  reflexivity.
Defined.

(** C9. Applied to its own result with the same flow id,
    [ContinueWithVerificationUI.AppendTo] yields the same URL value again,
    whose query holds exactly one [flow] value, the string form of the flow
    id, whatever values the source had for [flow];
    [ContinueWithSetToken.AppendTo] returns the [nil] map, which has no
    parameter, and leaves the maps of the store as they are. *)
Theorem AppendTo_idempotent c src (h : urlStore) u :
  h !! src = Some u →
  (∃ p1 h1 p2 h2 u',
      AppendTo c src h = Some (p1, h1)
      ∧ AppendTo c p1 h1 = Some (p2, h2)
      ∧ h1 !! p1 = Some u'
      ∧ h2 !! p2 = Some u'
      ∧ Query u' !! "flow"
        = Some [uuid.String_ (ContinueWithVerificationUIFlow.ID (Flow c))])
  ∧ (∀ (t : ContinueWithSetToken.t) values hv,
        ContinueWithSetToken.AppendTo t values hv = (None, hv)
        ∧ valuesAt hv (ContinueWithSetToken.AppendTo t values hv).1 = ∅).
Proof.
  intros Hsrc. split; [|done].
  set (p1 := fresh (dom h)). set (h1 := <[p1 := augmented c u]> h).
  assert (H1 : h1 !! p1 = Some (augmented c u)) by apply lookup_insert_eq.
  exists p1, h1, (fresh (dom h1)), (<[fresh (dom h1) := augmented c u]> h1),
    (augmented c u).
  split_and!.
  - by apply AppendTo_allocates.
  - rewrite (AppendTo_allocates c p1 h1 (augmented c u)) by done.
    by rewrite augmented_idempotent.
  - done.
  - by rewrite lookup_insert_eq.
  - rewrite Query_augmented. apply lookup_insert_eq.
Qed.

Lemma AppendTo_idempotent_witness :
  (∃ p1 h1 p2 h2 u',
      AppendTo flow7 1%positive {[ 1%positive := verifyURL ]} = Some (p1, h1)
      ∧ AppendTo flow7 p1 h1 = Some (p2, h2)
      ∧ h1 !! p1 = Some u'
      ∧ h2 !! p2 = Some u'
      ∧ Query u' !! "flow"
        = Some [uuid.String_ (ContinueWithVerificationUIFlow.ID (Flow flow7))])
  ∧ (∀ (t : ContinueWithSetToken.t) values hv,
        ContinueWithSetToken.AppendTo t values hv = (None, hv)
        ∧ valuesAt hv (ContinueWithSetToken.AppendTo t values hv).1 = ∅).
Proof.
  apply (AppendTo_idempotent flow7 1%positive {[ 1%positive := verifyURL ]} verifyURL).
  reflexivity.
Defined.
End flow_facts.

(** ** The login strategy *)

Module oidc_facts.
Import oidc.

(** *** The loop over the linked providers *)

Lemma forEach_miss {R A} (body : A → M R unit) (l : list A) w :
  Forall (λ x, body x w = (inl (), w)) l → forEach l body w = (inl (), w).
Proof.
  induction 1 as [|x l Hx _ IH]; [done|].
  cbn [forEach]. unfold mbind, M_bind. by rewrite Hx.
Qed.

Lemma forEach_hit {R A} (body : A → M R unit) (l : list A) w r w' :
  Exists (λ x, body x w = (inr r, w')) l →
  Forall (λ x, body x w = (inl (), w) ∨ body x w = (inr r, w')) l →
  forEach l body w = (inr r, w').
Proof.
  intros Hhit Hall. induction Hall as [|x l Hx _ IH]; [by apply Exists_nil in Hhit|].
  cbn [forEach]. unfold mbind, M_bind.
  destruct Hx as [Hx|Hx]; rewrite Hx; [|done].
  apply IH. apply Exists_cons in Hhit as [Hhit|]; [|done]. congruence.
Qed.

(** Unfolding the statements of a function body. *)
Ltac unfold_body :=
  unfold run, handleError, mbind, M_bind, mret, M_ret, call, getRequest,
    setRequest, Return.

Lemma trace_step (t : list Event) e es : (t ++ [e]) ++ es = t ++ e :: es.
Proof. by rewrite <-(assoc_L (++)). Qed.

Ltac finish := cbn [trace request app]; rewrite ?trace_step; try reflexivity.

(** *** [processLogin] *)

Section processLogin.
Variable s : Strategy.
Variables (a : login.Flow) (token : option oauth2.Token) (claims : Claims)
  (provider : Provider) (container : option authCodeContainer).

Let pid := Configuration.ID (Config provider).
Let identifier := OIDCUniqueID s pid (Subject claims).

Local Abbreviation returning := (oidc.returning a).
Local Abbreviation linked := (oidc.linked claims provider).
Local Abbreviation loginSession := (oidc.loginSession s).



(** C3. When an identity is found by the identifier, its credentials
    decode, and no decoded entry links the asserted provider and subject,
    [processLogin] returns no flow and, through [handleError], the
    internal server error [credentialsMismatch] (code 500), which is
    neither herodot's not-found error, nor "no rows", nor the
    user-not-found error. The post-login hook is not called. *)
Theorem processLogin_credentials_mismatch w i c o :
  FindByCredentialsIdentifier (d s) identity.CredentialsTypeOIDC identifier
    = inl (i, c) →
  decodeCredentialsOIDC s (identity.Config c) = inl o →
  Forall (λ c, ¬ linked c) (identity.Providers o) →
  ∃ e,
    run (processLogin s a token claims provider container) w
    = ((None, Some (WithStack (Herodot e))),
       {| trace := trace w ++ [
            CallFindByCredentialsIdentifier identity.CredentialsTypeOIDC identifier;
            CallHandleError (request w) a pid None (WithStack (Herodot e)) ];
          request := request w |})
    ∧ WithStack (Herodot e) = credentialsMismatch pid (Subject claims)
    ∧ herodot.CodeField e = 500
    ∧ herodot.StatusField e = "Internal Server Error"
    ∧ errors.Is (WithStack (Herodot e)) (Herodot herodot.ErrNotFound) = false
    ∧ errors.Is (WithStack (Herodot e)) sqlcon.ErrNoRows = false
    ∧ errors.Is (WithStack (Herodot e)) UserNotFoundError = false.
Proof.
  intros Hfind Hdecode Hnone. eexists. split; [|by split_and!].
  unfold processLogin. unfold_body. fold pid identifier.
  rewrite Hfind, Hdecode. rewrite forEach_miss.
  2:{ eapply Forall_impl; [exact Hnone|]. intros x Hx. by rewrite decide_False. }
  by finish.
Qed.

(** C4. When an identity is found by the identifier, its credentials
    decode, and a decoded entry links the asserted provider and subject,
    [processLogin] calls the post-login hook with the login flow, the
    identity that was found and a session that is inactive and has
    completed the first assurance level with this strategy (and nothing
    else). When the hook returns no error, [processLogin] returns neither
    a flow nor an error. *)
Theorem processLogin_known_identity w i c o :
  FindByCredentialsIdentifier (d s) identity.CredentialsTypeOIDC identifier
    = inl (i, c) →
  decodeCredentialsOIDC s (identity.Config c) = inl o →
  Exists linked (identity.Providers o) →
  PostLoginHook (d s) (request w) node.OpenIDConnectGroup a i loginSession = None →
  run (processLogin s a token claims provider container) w
  = ((None, None),
     {| trace := trace w ++ [
          CallFindByCredentialsIdentifier identity.CredentialsTypeOIDC identifier;
          CallPostLoginHook (request w) node.OpenIDConnectGroup a i loginSession ];
        request := request w |})
  ∧ loginSession
    = {| session.Active := false;
         session.AuthenticatorAssuranceLevel := identity.NoAuthenticatorAssuranceLevel;
         session.AMR := [ {| session.Method := ID s;
                            session.AAL := identity.AuthenticatorAssuranceLevel1 |} ] |}.
Proof.
  intros Hfind Hdecode Hlinked Hhook. split; [|done].
  unfold processLogin. unfold_body. fold pid identifier loginSession.
  rewrite Hfind, Hdecode. cbn [trace request].
  erewrite forEach_hit; [by finish| |].
  - eapply Exists_impl; [exact Hlinked|]. intros x Hx.
    rewrite decide_True by done. cbn [trace request]. rewrite Hhook. by finish.
  - apply Forall_forall. intros x _. destruct (decide _); [right|by left].
    cbn [trace request]. rewrite Hhook. by finish.
Qed.
End processLogin.


(** In that run the request URL the registration flow was created with
    is not the one handed on: the take-over has changed it. *)
Example take_over_changes_the_request_URL :
  scenario.takeOver (login.RequestURL (scenario.loginFlow flow.TypeBrowser))
    (registration.RequestURL scenario.registrationFlow)
  = inl (registration.RequestURL scenario.continuedFlow)
  ∧ registration.RequestURL scenario.continuedFlow
    ≠ registration.RequestURL scenario.registrationFlow.
Proof. split; [vm_compute; reflexivity|discriminate]. Qed.

Lemma processLogin_credentials_mismatch_witness :
  ∃ e,
    run (processLogin scenario.mismatchedUser (scenario.loginFlow flow.TypeBrowser) None
           scenario.claims (scenario.googleProvider None) None) scenario.world
    = ((None, Some (WithStack (Herodot e))),
       {| trace := trace scenario.world ++ [
            CallFindByCredentialsIdentifier identity.CredentialsTypeOIDC "google:sub-123";
            CallHandleError (request scenario.world)
              (scenario.loginFlow flow.TypeBrowser) "google" None
              (WithStack (Herodot e)) ];
          request := request scenario.world |})
    ∧ WithStack (Herodot e) = credentialsMismatch "google" "sub-123"
    ∧ herodot.CodeField e = 500
    ∧ herodot.StatusField e = "Internal Server Error"
    ∧ errors.Is (WithStack (Herodot e)) (Herodot herodot.ErrNotFound) = false
    ∧ errors.Is (WithStack (Herodot e)) sqlcon.ErrNoRows = false
    ∧ errors.Is (WithStack (Herodot e)) UserNotFoundError = false.
Proof.
  apply (processLogin_credentials_mismatch scenario.mismatchedUser
           (scenario.loginFlow flow.TypeBrowser) None scenario.claims
           (scenario.googleProvider None) None scenario.world
           scenario.alice scenario.credentials
           {| identity.Providers :=
                [scenario.link "github" "sub-123"; scenario.link "google" "sub-999"] |});
    [reflexivity | reflexivity |].
  repeat constructor; intros [? ?]; discriminate.
Defined.

Lemma processLogin_known_identity_witness :
  run (processLogin scenario.knownUser (scenario.loginFlow flow.TypeBrowser) None
         scenario.claims (scenario.googleProvider None) None) scenario.world
  = ((None, None),
     {| trace := trace scenario.world ++ [
          CallFindByCredentialsIdentifier identity.CredentialsTypeOIDC "google:sub-123";
          CallPostLoginHook (request scenario.world) node.OpenIDConnectGroup
            (scenario.loginFlow flow.TypeBrowser) scenario.alice
            (loginSession scenario.knownUser) ];
        request := request scenario.world |})
  ∧ loginSession scenario.knownUser
    = {| session.Active := false;
         session.AuthenticatorAssuranceLevel := identity.NoAuthenticatorAssuranceLevel;
         session.AMR := [ {| session.Method := identity.CredentialsTypeOIDC;
                            session.AAL := identity.AuthenticatorAssuranceLevel1 |} ] |}.
Proof.
  apply (processLogin_known_identity scenario.knownUser
           (scenario.loginFlow flow.TypeBrowser) None scenario.claims
           (scenario.googleProvider None) None scenario.world
           scenario.alice scenario.credentials
           {| identity.Providers :=
                [scenario.link "github" "sub-123"; scenario.link "google" "sub-123"] |});
    [reflexivity | reflexivity | | reflexivity].
  apply Exists_cons_tl, Exists_cons_hd. by split.
Defined.


(** *** [Login] *)

Section Login.
Variables (s : Strategy) (f : login.Flow) (identityID : uuid.UUID) (w : World).

Let r := request w.

Local Abbreviation decodes := (oidc.decodes s f w).
Local Abbreviation decoding := (oidc.decoding s f w).
Local Abbreviation reachesBranch := (oidc.reachesBranch s f w).
Local Abbreviation start := (oidc.start s f w).
Local Abbreviation paused := (oidc.paused s f).
Local Abbreviation respond := (oidc.respond s f w).

(** C8. When the decoded payload of a login request, of a browser flow
    or of any other flow, names no provider, [Login] returns no identity
    and the error [ErrStrategyNotResponsible]; the flow is as it was, and
    the run has made the decoding calls only: no provider is resolved. *)
Theorem Login_without_provider_id p :
  decodes p →
  UpdateLoginFlowWithOidcMethod.Provider p = "" →
  run (Login s f identityID) w
  = ((f, (None, Some (WithStack ErrStrategyNotResponsible))),
     {| trace := trace w ++ decoding; request := request w |})
  ∧ Forall (λ e, resolvesProvider e = false) decoding.
Proof.
  intros [Haal Hdec] Hpid. unfold r in *. split.
  - unfold Login, decoding. unfold_body. rewrite Haal.
    destruct (decide (login.Type_ f = flow.TypeBrowser)).
    + rewrite Hdec. cbn [trace request]. rewrite Hpid.
      rewrite decide_True by done. by finish.
    + destruct Hdec as [Hen Hdec]. cbn [trace request]. rewrite Hen, Hdec.
      rewrite Hpid. rewrite decide_True by done. by finish.
  - unfold decoding. destruct (decide _); by repeat constructor.
Qed.

(** Running [Login] up to the branch on the flow type. *)
Ltac to_branch Hreach :=
  destruct Hreach as ([Haal Hdec] & Hpid & Hen & Hprov & Hoauth & Hval & Hauth);
  unfold Login, start, decoding; unfold_body; unfold r in *; rewrite Haal.

(** C5, as amended. A browser flow that reaches the branch on its type
    is paused in the continuity channel with the generated state, the
    string form of the flow id and the submitted traits, for thirty
    minutes; when the pause returns no error, the flow, with this
    strategy as its active method and nothing else changed, is handed to
    the persister; when that update returns no error either, [Login]
    decodes the submitted upstream parameters. When they decode, it
    answers with the authorization URL and returns no identity and
    [ErrCompletedByStrategy]; when they do not, it returns no identity
    and the error of the decoder, and answers nothing. Either way it
    leaves the flow with this strategy as its active method. *)
Theorem Login_browser p provider c req :
  let f' :=
    {| login.ID := login.ID f; login.Type_ := login.Type_ f;
       login.RequestURL := login.RequestURL f; login.ReturnTo := login.ReturnTo f;
       login.Active := ID s;
       login.RequestedAAL := login.RequestedAAL f; login.Refresh := login.Refresh f |} in
  login.Type_ f = flow.TypeBrowser →
  reachesBranch p provider c req →
  Pause (d s) r (sessionName s) (paused p) (time.Minute * 30)%Z = None →
  UpdateLoginFlow (d s) f' = None →
  run (Login s f identityID) w
  = match decodeUpstreamParameters s
            (UpdateLoginFlowWithOidcMethod.UpstreamParameters p) with
    | inl up =>
        ((f', (None, Some (WithStack ErrCompletedByStrategy))),
         {| trace := trace w ++ start p provider req ++ [
              CallPause r (sessionName s) (paused p) (time.Minute * 30)%Z;
              CallUpdateLoginFlow f';
              respond provider c req up ];
            request := request w |})
    | inr err =>
        ((f', (None, Some err)),
         {| trace := trace w ++ start p provider req ++ [
              CallPause r (sessionName s) (paused p) (time.Minute * 30)%Z;
              CallUpdateLoginFlow f' ];
            request := request w |})
    end
  ∧ (time.Minute * 30 = 30 * 60 * 1000000000)%Z
  ∧ login.Active f' = ID s.
Proof.
  intros f' Hb Hreach Hpause Hupdate. split_and!; [|done|done].
  unfold respond, paused in *. to_branch Hreach.
  rewrite !(decide_True (P := login.Type_ f = flow.TypeBrowser)) by done.
  rewrite decide_True in Hdec by done.
  rewrite Hdec. cbn [trace request].
  rewrite decide_False by done. rewrite Hen, Hprov, Hoauth, Hval, Hauth.
  rewrite decide_True by done.
  cbn [trace request]. rewrite Hpause.
  change (login.withActive f (ID s)) with f'. rewrite Hupdate.
  destruct (decodeUpstreamParameters s _) as [up|err].
  - by destruct (IsJSONRequest s (request w)); finish.
  - by finish.
Qed.

Lemma api_not_browser : login.Type_ f = flow.TypeAPI → login.Type_ f ≠ flow.TypeBrowser.
Proof. by intros ->. Qed.

Lemma length_pos (x : string) : x ≠ "" ↔ 0 < String.length x.
Proof. destruct x; cbn; [split; [done|lia]|split; [lia|done]]. Qed.

(** C7, as amended. On a native flow that reaches the branch on its
    type, [Login] returns no identity and, through [handleError],
    [ErrProviderNoAPISupport] when the provider does not verify ID tokens
    itself, and [ErrIDTokenMissing] when it does and the payload has no
    ID token. The provider is never asked to verify a token on the way;
    it has been asked for its OAuth2 client. *)
Theorem Login_native_without_claims p provider c req :
  login.Type_ f = flow.TypeAPI →
  reachesBranch p provider c req →
  isAPIFlowProvider s provider = false
  ∨ UpdateLoginFlowWithOidcMethod.IDToken p = "" →
  let err :=
    if isAPIFlowProvider s provider then ErrIDTokenMissing
    else ErrProviderNoAPISupport in
  let calls :=
    start p provider req ++ [
      CallHandleError r f (UpdateLoginFlowWithOidcMethod.Provider p) None err ] in
  run (Login s f identityID) w
  = ((f, (None, Some err)),
     {| trace := trace w ++ calls; request := request w |})
  ∧ Forall (λ e, verifiesIDToken e = false) calls
  ∧ CallOAuth2 provider ∈ calls.
Proof.
  intros Hapi Hreach Hcase err calls.
  pose proof (api_not_browser Hapi) as Hnb. unfold calls, err. split_and!.
  - to_branch Hreach.
    rewrite !(decide_False (P := login.Type_ f = flow.TypeBrowser)) by done.
    rewrite decide_False in Hdec by done. destruct Hdec as [Henr Hdec].
    cbn [trace request]. rewrite Henr, Hdec. cbn [trace request].
    rewrite decide_False by done. rewrite Hen, Hprov, Hoauth, Hval, Hauth.
    rewrite decide_False by done. rewrite decide_True by done.
    cbn [trace request].
    destruct (isAPIFlowProvider s provider); [|by finish].
    destruct Hcase as [|Htok]; [done|]. rewrite Htok.
    rewrite decide_False by (cbn; lia). by finish.
  - unfold start, decoding. by destruct (decide _); repeat constructor.
  - unfold start. rewrite !elem_of_app, !elem_of_cons. tauto.
Qed.

(** C2, as amended. On a native flow that reaches the branch on its
    type, with a provider that verifies ID tokens and an ID token from
    which it extracts claims, when the identity pool answers the lookup
    of the provider and the subject of the claims with "no rows", [Login]
    returns no identity and, through [handleError], the user-not-found
    error. No registration flow is created and [processRegistration] is
    not called. *)
Theorem Login_native_unknown_identity p provider c req claims err :
  login.Type_ f = flow.TypeAPI →
  reachesBranch p provider c req →
  isAPIFlowProvider s provider = true →
  UpdateLoginFlowWithOidcMethod.IDToken p ≠ "" →
  ClaimsFromIDToken s provider (UpdateLoginFlowWithOidcMethod.IDToken p) = inl claims →
  FindByCredentialsIdentifier (d s) identity.CredentialsTypeOIDC
    (OIDCUniqueID s (Configuration.ID (Config provider)) (Subject claims)) = inr err →
  errors.Is err sqlcon.ErrNoRows = true →
  let calls :=
    start p provider req ++ [
      CallClaimsFromIDToken provider (UpdateLoginFlowWithOidcMethod.IDToken p);
      CallFindByCredentialsIdentifier identity.CredentialsTypeOIDC
        (OIDCUniqueID s (Configuration.ID (Config provider)) (Subject claims));
      CallHandleError r f (UpdateLoginFlowWithOidcMethod.Provider p) None
        UserNotFoundError ] in
  run (Login s f identityID) w
  = ((f, (None, Some UserNotFoundError)),
     {| trace := trace w ++ calls; request := request w |})
  ∧ Forall (λ e, startsRegistration e = false) calls.
Proof.
  intros Hapi Hreach Hcap Htok Hclaims Hfind Hnorows calls.
  pose proof (api_not_browser Hapi) as Hnb. unfold calls. split.
  - to_branch Hreach.
    rewrite !(decide_False (P := login.Type_ f = flow.TypeBrowser)) by done.
    rewrite decide_False in Hdec by done. destruct Hdec as [Henr Hdec].
    cbn [trace request]. rewrite Henr, Hdec. cbn [trace request].
    rewrite decide_False by done. rewrite Hen, Hprov, Hoauth, Hval, Hauth.
    rewrite decide_False by done. rewrite decide_True by done.
    cbn [trace request]. rewrite Hcap.
    rewrite decide_True by (by apply length_pos).
    cbn [trace request]. rewrite Hclaims, Hfind, Hnorows. by finish.
  - unfold start, decoding. by destruct (decide _); repeat constructor.
Qed.
End Login.


Import scenario.

Lemma Login_without_provider_id_witness :
  run (Login noProviderChosen (loginFlow flow.TypeBrowser) []) world
  = ((loginFlow flow.TypeBrowser, (None, Some (WithStack ErrStrategyNotResponsible))),
     {| trace := trace world
                 ++ decoding noProviderChosen (loginFlow flow.TypeBrowser) world;
        request := request world |})
  ∧ Forall (λ e, resolvesProvider e = false)
      (decoding noProviderChosen (loginFlow flow.TypeBrowser) world).
Proof.
  apply (Login_without_provider_id noProviderChosen (loginFlow flow.TypeBrowser) []
           world (payload "" "{}" "")).
  - split; reflexivity.
  - reflexivity.
Defined.

(** The concrete flows reach the branch on the flow type. *)
Ltac reaches :=
  unfold reachesBranch, decodes; split_and!; try done;
  vm_compute; first [done | by split].

Lemma Login_browser_witness :
  run (Login unknownUser (loginFlow flow.TypeBrowser) []) world
  = match decodeUpstreamParameters unknownUser
            (UpdateLoginFlowWithOidcMethod.UpstreamParameters (payload "google" "{}" "")) with
    | inl up =>
        ((activeFlow flow.TypeBrowser, (None, Some (WithStack ErrCompletedByStrategy))),
         {| trace := trace world
              ++ start unknownUser (loginFlow flow.TypeBrowser) world
                   (payload "google" "{}" "") (googleProvider None)
                   {| GetID := login.ID (loginFlow flow.TypeBrowser) |}
              ++ [ CallPause (request world) (sessionName unknownUser)
                     (paused unknownUser (loginFlow flow.TypeBrowser)
                        (payload "google" "{}" ""))
                     (time.Minute * 30)%Z;
                   CallUpdateLoginFlow (activeFlow flow.TypeBrowser);
                   respond unknownUser (loginFlow flow.TypeBrowser) world
                     (googleProvider None) googleClient
                     {| GetID := login.ID (loginFlow flow.TypeBrowser) |} up ];
            request := request world |})
    | inr err =>
        ((activeFlow flow.TypeBrowser, (None, Some err)),
         {| trace := trace world
              ++ start unknownUser (loginFlow flow.TypeBrowser) world
                   (payload "google" "{}" "") (googleProvider None)
                   {| GetID := login.ID (loginFlow flow.TypeBrowser) |}
              ++ [ CallPause (request world) (sessionName unknownUser)
                     (paused unknownUser (loginFlow flow.TypeBrowser)
                        (payload "google" "{}" ""))
                     (time.Minute * 30)%Z;
                   CallUpdateLoginFlow (activeFlow flow.TypeBrowser) ];
            request := request world |})
    end
  ∧ (time.Minute * 30 = 30 * 60 * 1000000000)%Z
  ∧ login.Active (activeFlow flow.TypeBrowser) = ID unknownUser.
Proof.
  apply (Login_browser unknownUser (loginFlow flow.TypeBrowser) [] world
           (payload "google" "{}" "") (googleProvider None) googleClient
           {| GetID := login.ID (loginFlow flow.TypeBrowser) |});
    first [reflexivity | reaches].
Defined.

(** The flow of that run goes in with no active method and comes out
    with this strategy's. *)
Example Login_browser_marks_the_flow :
  login.Active (loginFlow flow.TypeBrowser) = ""
  ∧ login.Active (run (Login unknownUser (loginFlow flow.TypeBrowser) []) world).1.1
    = identity.CredentialsTypeOIDC.
Proof. split; vm_compute; reflexivity. Qed.

(** On a browser flow that reaches the branch, pauses and persists, the
    upstream parameters [[1]] do not decode, and [Login] returns the error
    of the decoder, not [ErrCompletedByStrategy]. *)
Lemma Login_browser_upstream_parameters_undecodable :
  login.Type_ (loginFlow flow.TypeBrowser) = flow.TypeBrowser
  ∧ reachesBranch undecodableUpstream (loginFlow flow.TypeBrowser) world
      (payload "google" "[1]" "") (googleProvider None) googleClient
      {| GetID := login.ID (loginFlow flow.TypeBrowser) |}
  ∧ Pause (d undecodableUpstream) (request world) (sessionName undecodableUpstream)
      (paused undecodableUpstream (loginFlow flow.TypeBrowser) (payload "google" "[1]" ""))
      (time.Minute * 30)%Z = None
  ∧ UpdateLoginFlow (d undecodableUpstream)
      (login.withActive (loginFlow flow.TypeBrowser) (ID undecodableUpstream)) = None
  ∧ (run (Login undecodableUpstream (loginFlow flow.TypeBrowser) []) world).1
    = (login.withActive (loginFlow flow.TypeBrowser) identity.CredentialsTypeOIDC,
       (None,
        Some (Foreign "json: cannot unmarshal into Go value of type map[string]string")))
  ∧ (run (Login undecodableUpstream (loginFlow flow.TypeBrowser) []) world).1.2.2
    ≠ Some (WithStack ErrCompletedByStrategy).
Proof. split_and!; [done|reaches|done|done|by vm_compute|by vm_compute]. Qed.

Lemma Login_native_without_claims_witness :
  run (Login nativeNoToken (loginFlow flow.TypeAPI) []) world
  = ((loginFlow flow.TypeAPI, (None, Some ErrIDTokenMissing)),
     {| trace := trace world
          ++ start nativeNoToken (loginFlow flow.TypeAPI) world
               (payload "google" "{}" "") (googleProvider None)
               {| GetID := login.ID (loginFlow flow.TypeAPI) |}
          ++ [ CallHandleError (request world) (loginFlow flow.TypeAPI) "google" None
                 ErrIDTokenMissing ];
        request := request world |})
  ∧ Forall (λ e, verifiesIDToken e = false)
      (start nativeNoToken (loginFlow flow.TypeAPI) world
         (payload "google" "{}" "") (googleProvider None)
         {| GetID := login.ID (loginFlow flow.TypeAPI) |}
       ++ [ CallHandleError (request world) (loginFlow flow.TypeAPI) "google" None
              ErrIDTokenMissing ])
  ∧ CallOAuth2 (googleProvider None)
    ∈ start nativeNoToken (loginFlow flow.TypeAPI) world
        (payload "google" "{}" "") (googleProvider None)
        {| GetID := login.ID (loginFlow flow.TypeAPI) |}
      ++ [ CallHandleError (request world) (loginFlow flow.TypeAPI) "google" None
             ErrIDTokenMissing ].
Proof.
  apply (Login_native_without_claims nativeNoToken (loginFlow flow.TypeAPI) [] world
           (payload "google" "{}" "") (googleProvider None) googleClient
           {| GetID := login.ID (loginFlow flow.TypeAPI) |});
    first [reflexivity | reaches | right; reflexivity].
Defined.

(** On a native flow whose provider verifies ID tokens and whose payload
    has no ID token, [Login] fails with [ErrIDTokenMissing], and by then
    it has called the provider for its OAuth2 client. *)
Lemma Login_native_calls_provider_before_failing :
  login.Type_ (loginFlow flow.TypeAPI) = flow.TypeAPI
  ∧ provider nativeNoToken (request world) "google" = inl (googleProvider None)
  ∧ isAPIFlowProvider nativeNoToken (googleProvider None) = true
  ∧ UpdateLoginFlowWithOidcMethod.IDToken (payload "google" "{}" "") = ""
  ∧ (run (Login nativeNoToken (loginFlow flow.TypeAPI) []) world).1
    = (loginFlow flow.TypeAPI, (None, Some ErrIDTokenMissing))
  ∧ ¬ Forall (λ e, callsProvider e = false)
        (trace (run (Login nativeNoToken (loginFlow flow.TypeAPI) []) world).2).
Proof.
  split_and!; [done|done|done|done|by vm_compute|].
  intros H. apply Forall_forall with (x := CallOAuth2 (googleProvider None)) in H.
  - discriminate.
  - vm_compute. do 4 right. by left.
Qed.

Lemma Login_native_unknown_identity_witness :
  run (Login nativeWithToken (loginFlow flow.TypeAPI) []) world
  = ((loginFlow flow.TypeAPI, (None, Some UserNotFoundError)),
     {| trace := trace world
          ++ start nativeWithToken (loginFlow flow.TypeAPI) world
               (payload "google" "{}" "eyJhbGciOi.eyJzdWIiOi.c2ln") (googleProvider None)
               {| GetID := login.ID (loginFlow flow.TypeAPI) |}
          ++ [ CallClaimsFromIDToken (googleProvider None) "eyJhbGciOi.eyJzdWIiOi.c2ln";
               CallFindByCredentialsIdentifier identity.CredentialsTypeOIDC "google:sub-123";
               CallHandleError (request world) (loginFlow flow.TypeAPI) "google" None
                 UserNotFoundError ];
        request := request world |})
  ∧ Forall (λ e, startsRegistration e = false)
      (start nativeWithToken (loginFlow flow.TypeAPI) world
         (payload "google" "{}" "eyJhbGciOi.eyJzdWIiOi.c2ln") (googleProvider None)
         {| GetID := login.ID (loginFlow flow.TypeAPI) |}
       ++ [ CallClaimsFromIDToken (googleProvider None) "eyJhbGciOi.eyJzdWIiOi.c2ln";
            CallFindByCredentialsIdentifier identity.CredentialsTypeOIDC "google:sub-123";
            CallHandleError (request world) (loginFlow flow.TypeAPI) "google" None
              UserNotFoundError ]).
Proof.
  apply (Login_native_unknown_identity nativeWithToken (loginFlow flow.TypeAPI) [] world
           (payload "google" "{}" "eyJhbGciOi.eyJzdWIiOi.c2ln") (googleProvider None)
           googleClient {| GetID := login.ID (loginFlow flow.TypeAPI) |}
           claims (WithStack sqlcon.ErrNoRows));
    first [reflexivity | reaches | done].
Defined.

(** On a native flow whose ID token yields claims for a subject that no
    identity is linked to, [Login] returns an error and starts no
    registration. *)
Lemma Login_native_unknown_identity_fails :
  login.Type_ (loginFlow flow.TypeAPI) = flow.TypeAPI
  ∧ ClaimsFromIDToken nativeWithToken (googleProvider None)
      "eyJhbGciOi.eyJzdWIiOi.c2ln" = inl claims
  ∧ FindByCredentialsIdentifier (d nativeWithToken) identity.CredentialsTypeOIDC
      "google:sub-123" = inr (WithStack sqlcon.ErrNoRows)
  ∧ (run (Login nativeWithToken (loginFlow flow.TypeAPI) []) world).1
    = (loginFlow flow.TypeAPI, (None, Some UserNotFoundError))
  ∧ (run (Login nativeWithToken (loginFlow flow.TypeAPI) []) world).1.2 ≠ (None, None)
  ∧ Forall (λ e, startsRegistration e = false)
      (trace (run (Login nativeWithToken (loginFlow flow.TypeAPI) []) world).2).
Proof.
  split_and!; [done|done|done|by vm_compute|by vm_compute|].
  vm_compute. by repeat constructor.
Qed.

End oidc_facts.

(** ** The provider registry *)

Module registry_facts.
Import oidc.
Import ConfigurationCollection.

Lemma append_assoc (a b c : string) : (a +:+ b) +:+ c = a +:+ b +:+ c.
Proof.
  induction a as [|x a IH]; [done|].
  change (String x ((a +:+ b) +:+ c) = String x (a +:+ b +:+ c)). by rewrite IH.
Qed.

Lemma append_nil_r (a : string) : a +:+ "" = a.
Proof.
  induction a as [|x a IH]; [done|].
  change (String x (a +:+ "") = String x a). by rewrite IH.
Qed.

Lemma occurs_append_l sub a b : occurs sub b → occurs sub (a +:+ b).
Proof.
  intros (before & after & ->). exists (a +:+ before), after.
  by rewrite append_assoc.
Qed.

Lemma occurs_append_r sub a b : occurs sub a → occurs sub (a +:+ b).
Proof.
  intros (before & after & ->). exists before, (after +:+ b).
  by rewrite !append_assoc.
Qed.

Lemma occurs_concat sep k (l : list string) :
  k ∈ l → occurs k (String.concat sep l).
Proof.
  induction l as [|x l IH]; [by intros ?%elem_of_nil|].
  intros [->|Hk]%elem_of_cons.
  - destruct l as [|y l]; cbn [String.concat].
    + exists "", "". by rewrite append_nil_r.
    + by exists "", (sep +:+ String.concat sep (y :: l)).
  - destruct l as [|y l]; [by apply elem_of_nil in Hk|].
    cbn [String.concat]. by apply occurs_append_l, occurs_append_l, IH.
Qed.

(** Every registered constructor binds the configuration it is given. *)
Lemma constructors_bind kind f c reg :
  providers !! kind = Some f → Config (f c reg) = c.
Proof.
  intros Hf. revert c reg.
  assert (H : map_Forall (λ _ f, ∀ c reg, Config (f c reg) = c) providers).
  { apply map_Forall_to_list. vm_compute. by repeat constructor. }
  by apply (H kind).
Qed.

(** The configuration the loop stops at. *)
Lemma first_with_id (ps : list Configuration.t) id :
  ¬ Forall (λ p, Configuration.ID p ≠ id) ps →
  ∃ l1 p l2,
    ps = l1 ++ p :: l2
    ∧ Forall (λ q, Configuration.ID q ≠ id) l1
    ∧ Configuration.ID p = id.
Proof.
  induction ps as [|q ps IH]; intros Hex; [by destruct Hex|].
  destruct (decide (Configuration.ID q = id)) as [Hq|Hq].
  - by exists [], q, ps.
  - destruct IH as (l1 & p & l2 & -> & Hl1 & Hp).
    + intros Hall. apply Hex. by constructor.
    + exists (q :: l1), p, l2. split_and!; [done| |done]. by constructor.
Qed.

Section Provider.
Variable rangeOrder : list string → list string.
Hypothesis rangeOrder_permutes : ∀ l, rangeOrder l ≡ₚ l.

Lemma providerNames_complete kind :
  is_Some (providers !! kind) → kind ∈ providerNames rangeOrder.
Proof.
  intros [f Hf]. unfold providerNames. rewrite rangeOrder_permutes.
  apply list_elem_of_fmap. exists (kind, f). split; [done|].
  by apply elem_of_map_to_list.
Qed.

Lemma rangeProviders_unknown ps id reg :
  Forall (λ p, Configuration.ID p ≠ id) ps →
  rangeProviders rangeOrder ps id reg = inr (providerUnknown id).
Proof.
  induction 1 as [|p ps Hp _ IH]; [done|].
  cbn [rangeProviders]. by rewrite decide_False.
Qed.

Lemma rangeProviders_found l1 p l2 id reg :
  Forall (λ q, Configuration.ID q ≠ id) l1 → Configuration.ID p = id →
  rangeProviders rangeOrder (l1 ++ p :: l2) id reg
  = match providers !! Configuration.Provider p with
    | None =>
        inr (New ("provider type " +:+ Configuration.Provider p
                  +:+ " is not supported, supported are: "
                  +:+ fmt_v (providerNames rangeOrder)))
    | Some f => inl (f p reg)
    end.
Proof.
  intros Hl1 Hp. induction Hl1 as [|q l1 Hq _ IH]; cbn [app rangeProviders].
  - by rewrite decide_True.
  - by rewrite decide_False.
Qed.

(** C6. Resolving [id] in a collection fails with the not-found error
    [providerUnknown] exactly when no configuration has that id.
    Otherwise the first configuration with that id decides: when no
    constructor is registered for its kind, the resolution fails with a
    message in which every registered kind occurs; when one is, the
    resolution returns the provider it constructs, which holds that
    configuration. *)
Theorem Provider_resolution c id reg :
  ((∃ e, Provider rangeOrder c id reg = inr e
         ∧ errors.Is e (Herodot herodot.ErrNotFound) = true)
   ↔ Forall (λ p, Configuration.ID p ≠ id) (Providers c))
  ∧ (Forall (λ p, Configuration.ID p ≠ id) (Providers c) →
     Provider rangeOrder c id reg = inr (providerUnknown id))
  ∧ ∀ l1 p l2,
      Providers c = l1 ++ p :: l2 →
      Forall (λ q, Configuration.ID q ≠ id) l1 →
      Configuration.ID p = id →
      match providers !! Configuration.Provider p with
      | None =>
          ∃ message,
            Provider rangeOrder c id reg = inr (New message)
            ∧ ∀ kind, is_Some (providers !! kind) → occurs kind message
      | Some f =>
          Provider rangeOrder c id reg = inl (f p reg)
          ∧ Config (f p reg) = p
      end.
Proof.
  unfold Provider. split_and!.
  - split.
    + intros (e & He & Hnf).
      destruct (decide (Forall (λ p, Configuration.ID p ≠ id) (Providers c)))
        as [|Hex]; [done|].
      apply first_with_id in Hex as (l1 & p & l2 & Hsplit & Hfirst & Hp).
      rewrite Hsplit, rangeProviders_found in He; [|done..].
      destruct (providers !! Configuration.Provider p); [done|].
      by injection He as <-.
    + intros Hall. exists (providerUnknown id).
      by rewrite rangeProviders_unknown.
  - apply rangeProviders_unknown.
  - intros l1 p l2 -> Hl1 Hp. rewrite rangeProviders_found by done.
    destruct (providers !! Configuration.Provider p) as [f|] eqn:Hkind.
    + split; [done|]. by eapply constructors_bind.
    + eexists. split; [done|]. intros kind Hsome.
      do 3 apply occurs_append_l. unfold fmt_v.
      apply occurs_append_l, occurs_append_r, occurs_concat.
      by apply providerNames_complete.
Qed.
End Provider.

Import scenario.

Example Provider_google :
  Provider id mixedCollection "google" (deps None) = inl (googleProvider None).
Proof. reflexivity. Qed.

Example Provider_corp :
  Provider id mixedCollection "corp" (deps None)
  = inr (New "provider type okta is not supported, supported are: [google generic gitlab github-app github slack spotify microsoft yandex auth0 apple netid vk facebook linkedin discord dingtalk patreon]").
Proof. vm_compute. reflexivity. Qed.

Example Provider_absent :
  Provider id mixedCollection "gitlab" (deps None) = inr (providerUnknown "gitlab").
Proof. reflexivity. Qed.

Lemma Provider_resolution_witness :
  ((∃ e, Provider id mixedCollection "corp" (deps None) = inr e
         ∧ errors.Is e (Herodot herodot.ErrNotFound) = true)
   ↔ Forall (λ p, Configuration.ID p ≠ "corp") (Providers mixedCollection))
  ∧ (Forall (λ p, Configuration.ID p ≠ "corp") (Providers mixedCollection) →
     Provider id mixedCollection "corp" (deps None) = inr (providerUnknown "corp"))
  ∧ ∀ l1 p l2,
      Providers mixedCollection = l1 ++ p :: l2 →
      Forall (λ q, Configuration.ID q ≠ "corp") l1 →
      Configuration.ID p = "corp" →
      match providers !! Configuration.Provider p with
      | None =>
          ∃ message,
            Provider id mixedCollection "corp" (deps None) = inr (New message)
            ∧ ∀ kind, is_Some (providers !! kind) → occurs kind message
      | Some f =>
          Provider id mixedCollection "corp" (deps None) = inl (f p (deps None))
          ∧ Config (f p (deps None)) = p
      end.
Proof.
  apply (Provider_resolution id (λ l, reflexivity l) mixedCollection "corp" (deps None)).
Defined.

End registry_facts.

(** ** The paths through [Login] *)

Module Login_facts.
Import oidc oidc_facts runs.

Ltac explore :=
  repeat (cbn [trace request fst snd];
          match goal with
          | |- context [match ?x with _ => _ end] =>
              lazymatch x with
              | context [match _ with _ => _ end] => fail
              | _ => destruct x eqn:?
              end
          end).

Ltac added := cbn [trace request fst snd]; rewrite ?trace_step, ?drop_app_length, ?drop_all.

Ltac split_Forall :=
  repeat match goal with
         | H : Forall _ (_ :: _) |- _ => apply Forall_cons in H as [? H]
         end;
  cbn in *; try discriminate.

Ltac split_Exists :=
  repeat match goal with
         | H : Exists _ (_ :: _) |- _ => apply Exists_cons in H as [H|H]
         | H : Exists _ [] |- _ => by apply Exists_nil in H
         end;
  cbn in *; try discriminate.

(** Splitting a list of calls at its last call. *)
Ltac snoc :=
  match goal with
  | |- ∃ before, ?l = _ ∧ _ => exists (removelast l)
  | |- ∃ before _, ?l = _ ∧ _ => exists (removelast l)
  | |- ∃ before _ _, ?l = _ ∧ _ => exists (removelast l)
  end;
  cbn [removelast].

Ltac paths := unfold calls, result, Login; unfold_body; explore; added.

Lemma Login_trace s f id w :
  trace (run (Login s f id) w).2 = trace w ++ calls (Login s f id) w.
Proof. paths; by rewrite ?app_nil_r. Qed.

Lemma Login_keeps_request s f id w :
  request (run (Login s f id) w).2 = request w.
Proof. by paths. Qed.

(** X1. [Login] returns an identity only at the end of the native branch: the
    flow is of type API and is returned unchanged, no error comes with the
    identity, an ID token was verified during the call, and the last call
    is the lookup by credentials identifier that answered with this
    identity. *)
Theorem Login_identity s f id w i :
  (result (Login s f id) w).2.1 = Some i →
  login.Type_ f = flow.TypeAPI
  ∧ result (Login s f id) w = (f, (Some i, None))
  ∧ Exists (λ e, verifiesIDToken e = true) (calls (Login s f id) w)
  ∧ ∃ identifier c,
      last (calls (Login s f id) w)
      = Some (CallFindByCredentialsIdentifier identity.CredentialsTypeOIDC identifier)
      ∧ FindByCredentialsIdentifier (d s) identity.CredentialsTypeOIDC identifier
        = inl (i, c).
Proof.
  paths; cbn [fst snd]; intros [=]; subst.
  split_and!; [done|done| |].
  - repeat first [by apply Exists_cons_hd | apply Exists_cons_tl].
  - by eexists _, _.
Qed.

(** X2. [Login] leaves the flow as it found it or with [Active] set to the
    strategy's id, and nothing else; it leaves it as it found it for every
    flow that is not a browser flow, and on every run that does not pause
    the continuity channel. *)
Theorem Login_flow s f id w :
  ((result (Login s f id) w).1 = f
   ∨ (result (Login s f id) w).1 = login.withActive f (ID s))
  ∧ (login.Type_ f ≠ flow.TypeBrowser → (result (Login s f id) w).1 = f)
  ∧ (Forall (λ e, pauses e = false) (calls (Login s f id) w) →
     (result (Login s f id) w).1 = f).
Proof.
  paths; cbn [fst snd]; split_and!; try (by left); try (by right); try done.
  all: intros H; by split_Forall.
Qed.


(** X3. A run of [Login] that writes an answer (the redirect or the error
    body with the authorization URL) is a run on a browser flow that
    writes it once and last, straight after a pause and a flow update
    that both succeeded; the flow that was persisted and that the run
    leaves is the given flow with this strategy as its active method and
    nothing else changed, and the run returns no identity and
    [ErrCompletedByStrategy]. *)
Theorem Login_answer s f id w :
  let f' :=
    {| login.ID := login.ID f; login.Type_ := login.Type_ f;
       login.RequestURL := login.RequestURL f; login.ReturnTo := login.ReturnTo f;
       login.Active := ID s;
       login.RequestedAAL := login.RequestedAAL f; login.Refresh := login.Refresh f |} in
  Exists (λ e, answers e = true) (calls (Login s f id) w) →
  login.Type_ f = flow.TypeBrowser
  ∧ result (Login s f id) w = (f', (None, Some (WithStack ErrCompletedByStrategy)))
  ∧ login.Active (result (Login s f id) w).1 = ID s
  ∧ ∃ before r name payload lifespan e,
      calls (Login s f id) w
      = before ++ [ CallPause r name payload lifespan; CallUpdateLoginFlow f'; e ]
      ∧ answers e = true
      ∧ Forall (λ e, answers e = false) before
      ∧ Pause (d s) r name payload lifespan = None
      ∧ UpdateLoginFlow (d s) f' = None.
Proof.
  cbv zeta. paths; intros H; try (by split_Exists).
  all: split_and!; [done|done|done|].
  all: eexists [_; _; _; _; _; _], _, _, _, _, _.
  all: split_and!; [reflexivity|done|by repeat constructor|done|done].
Qed.

(** X4. No run of [Login] goes to the same collaborator twice. *)
Theorem Login_calls_once s f id w :
  NoDup (collaborator <$> calls (Login s f id) w).
Proof. paths; cbn; by apply (bool_decide_unpack _). Qed.

(** X5. No run of [Login] creates or processes a registration flow or runs
    the post-login hook, and the request is the same after the run as
    before it. *)
Theorem Login_never_registers s f id w :
  Forall (λ e, startsRegistration e = false ∧ runsHook e = false)
    (calls (Login s f id) w)
  ∧ request (run (Login s f id) w).2 = request w.
Proof. paths; by repeat constructor. Qed.

(** X6. The two branches keep apart: on a browser flow [Login] neither looks
    an identity up nor verifies an ID token; on any other flow it neither
    pauses the continuity channel, nor persists the flow, nor writes an
    answer. *)
Theorem Login_by_type s f id w :
  (login.Type_ f = flow.TypeBrowser →
   Forall (λ e, looksUp e = false ∧ verifiesIDToken e = false)
     (calls (Login s f id) w))
  ∧ (login.Type_ f ≠ flow.TypeBrowser →
     Forall (λ e, pauses e = false ∧ persists e = false ∧ answers e = false)
       (calls (Login s f id) w)).
Proof. paths; (split; intros ?; [|]); try done; by repeat constructor. Qed.

(** X7. A run of [Login] annotates at most one error: when the annotation
    step is called, it is the last call of the run, it is given the
    request, the flow as the run leaves it and no traits, and [Login]
    returns no identity and the error that step was given. *)
Theorem Login_annotation s f id w :
  Exists (λ e, annotates e = true) (calls (Login s f id) w) →
  ∃ before provider err,
    calls (Login s f id) w
    = before ++ [ CallHandleError (request w) (result (Login s f id) w).1
                    provider None err ]
    ∧ Forall (λ e, annotates e = false) before
    ∧ (result (Login s f id) w).2 = (None, Some err).
Proof.
  paths; intros H; try (by split_Exists).
  all: snoc; do 2 eexists; split_and!; [reflexivity|by repeat constructor|reflexivity].
Qed.


Section Login_paths.
Variables (s : Strategy) (f : login.Flow) (identityID : uuid.UUID) (w : World).

Ltac to_branch Hreach :=
  destruct Hreach as ([Haal Hdec] & Hpid & Hen & Hprov & Hoauth & Hval & Hauth);
  unfold Login, start, decoding; unfold_body; rewrite Haal;
  destruct (decide (login.Type_ f = flow.TypeBrowser)) as [Hb|Hnb];
  [ rewrite Hdec | destruct Hdec as [Henr Hdec]; cbn [trace request]; rewrite Henr, Hdec ];
  cbn [trace request]; rewrite decide_False by done;
  rewrite Hen, Hprov, Hoauth, Hval, Hauth; cbn [trace request].

(** X8. When the checks on the way to the branch pass and the request is
    already authenticated, [Login] returns no identity and no error after
    the session check, leaves the flow as it found it, and calls nothing
    further. *)
Theorem Login_already_authenticated p provider c req :
  signedIn s f w p provider c req →
  run (Login s f identityID) w
  = ((f, (None, None)),
     {| trace := trace w ++ start s f w p provider req; request := request w |}).
Proof. intros Hin. unfold signedIn, decodes in Hin. by to_branch Hin; finish. Qed.

(** X9. For a flow whose type is neither browser nor API that passes the
    checks on the way to the branch, [Login] fails with the error
    "Not supported flow type: " followed by the type, which is not
    annotated, and calls nothing after the session check. *)
Theorem Login_unsupported_type p provider c req :
  login.Type_ f ≠ flow.TypeBrowser →
  login.Type_ f ≠ flow.TypeAPI →
  reachesBranch s f w p provider c req →
  run (Login s f identityID) w
  = ((f, (None, Some (WithStack (New ("Not supported flow type: " +:+ login.Type_ f))))),
     {| trace := trace w ++ start s f w p provider req; request := request w |}).
Proof.
  intros Hbrowser Hapi Hreach. unfold reachesBranch, decodes in Hreach.
  to_branch Hreach; [done|]. rewrite decide_False by done. by finish.
Qed.

(** X10. The outcomes of the native branch once an ID token is supplied to a
    provider that verifies ID tokens: an error of the verification is
    returned wrapped and is not annotated; an identity the lookup finds
    is returned with no error; a lookup that finds no rows gives the
    annotated [UserNotFoundError]; any other error of the lookup is
    returned as it is, without annotation. *)
Theorem Login_native_with_token p provider c req :
  login.Type_ f = flow.TypeAPI →
  reachesBranch s f w p provider c req →
  isAPIFlowProvider s provider = true →
  UpdateLoginFlowWithOidcMethod.IDToken p ≠ "" →
  let pid := UpdateLoginFlowWithOidcMethod.Provider p in
  let verify := CallClaimsFromIDToken provider (UpdateLoginFlowWithOidcMethod.IDToken p) in
  run (Login s f identityID) w
  = match ClaimsFromIDToken s provider (UpdateLoginFlowWithOidcMethod.IDToken p) with
    | inr err =>
        ((f, (None, Some (WithStack err))),
         {| trace := trace w ++ start s f w p provider req ++ [verify];
            request := request w |})
    | inl claims =>
        let identifier :=
          OIDCUniqueID s (Configuration.ID (Config provider)) (Subject claims) in
        let lookup :=
          CallFindByCredentialsIdentifier identity.CredentialsTypeOIDC identifier in
        match FindByCredentialsIdentifier (d s) identity.CredentialsTypeOIDC identifier with
        | inl (i, _) =>
            ((f, (Some i, None)),
             {| trace := trace w ++ start s f w p provider req ++ [verify; lookup];
                request := request w |})
        | inr err =>
            if errors.Is err sqlcon.ErrNoRows then
              ((f, (None, Some UserNotFoundError)),
               {| trace := trace w ++ start s f w p provider req
                    ++ [verify; lookup;
                        CallHandleError (request w) f pid None UserNotFoundError];
                  request := request w |})
            else
              ((f, (None, Some err)),
               {| trace := trace w ++ start s f w p provider req ++ [verify; lookup];
                  request := request w |})
        end
    end.
Proof.
  intros Hapi Hreach Hcap Htok pid verify. unfold reachesBranch, decodes in Hreach.
  to_branch Hreach; [by rewrite Hapi in Hb|].
  rewrite decide_True by done. cbn [trace request]. rewrite Hcap.
  rewrite decide_True by (by apply length_pos). cbn [trace request].
  destruct (ClaimsFromIDToken _ _ _) as [claims|err]; [|by finish].
  destruct (FindByCredentialsIdentifier _ _ _) as [[i cr]|err]; [by finish|].
  by destruct (errors.Is err sqlcon.ErrNoRows); finish.
Qed.

(** X11. On a browser flow that reaches the branch, a failing pause of the
    continuity channel ends [Login] with that error, annotated, with the
    flow untouched and not persisted; a failing flow update after a
    successful pause ends it with the annotated internal error
    "Could not update flow", the flow left with this strategy as its
    active method, and nothing else changed, although it was not
    persisted, and no answer written. *)
Theorem Login_continuity_fails p provider c req :
  login.Type_ f = flow.TypeBrowser →
  reachesBranch s f w p provider c req →
  let r := request w in
  let pid := UpdateLoginFlowWithOidcMethod.Provider p in
  let pause := CallPause r (sessionName s) (paused s f p) (time.Minute * 30)%Z in
  let f' :=
    {| login.ID := login.ID f; login.Type_ := login.Type_ f;
       login.RequestURL := login.RequestURL f; login.ReturnTo := login.ReturnTo f;
       login.Active := ID s;
       login.RequestedAAL := login.RequestedAAL f; login.Refresh := login.Refresh f |} in
  (∀ err,
     Pause (d s) r (sessionName s) (paused s f p) (time.Minute * 30)%Z = Some err →
     run (Login s f identityID) w
     = ((f, (None, Some err)),
        {| trace := trace w ++ start s f w p provider req
             ++ [pause; CallHandleError r f pid None err];
           request := r |}))
  ∧ (∀ err,
       Pause (d s) r (sessionName s) (paused s f p) (time.Minute * 30)%Z = None →
       UpdateLoginFlow (d s) f' = Some err →
       let notUpdated :=
         WithStack (Herodot (herodot.WithDebug
           (herodot.WithReason herodot.ErrInternalServerError "Could not update flow")
           (Error s err))) in
       run (Login s f identityID) w
       = ((f', (None, Some notUpdated)),
          {| trace := trace w ++ start s f w p provider req
               ++ [pause; CallUpdateLoginFlow f';
                   CallHandleError r f' pid None notUpdated];
             request := r |})
       ∧ login.Active (run (Login s f identityID) w).1.1 = ID s).
Proof.
  intros Hbrowser Hreach r pid pause f'. unfold reachesBranch, decodes in Hreach.
  unfold paused, r, pid, pause, f' in *. split.
  - intros err Hpause. to_branch Hreach; [|done]. rewrite Hpause. by finish.
  - intros err Hpause Hupdate.
    match goal with |- ?x = ?y ∧ _ => assert (Hrun : x = y) end;
      [|by rewrite Hrun].
    to_branch Hreach; [|done]. unfold login.withActive.
    rewrite Hpause, Hupdate. by finish.
Qed.

(** X12. The failures before a payload is decoded. An error of the assurance
    level check is returned as it is before anything is called. On a
    browser flow a failing form decoder gives the annotated bad request
    "Unable to parse HTTP form request: ...". On any other flow a
    disabled method is returned as it is after that one check, without
    decoding, and a failing decoder gives the decoder's error, annotated
    with an empty provider id. *)
Theorem Login_decoding_fails :
  let r := request w in
  let here es := {| trace := trace w ++ es; request := r |} in
  match CheckAAL s f identity.AuthenticatorAssuranceLevel1 with
  | Some err => run (Login s f identityID) w = ((f, (None, Some err)), here [])
  | None =>
      if decide (login.Type_ f = flow.TypeBrowser) then
        ∀ err,
          newLinkDecoder s r = inr err →
          let unparsable :=
            WithStack (Herodot (herodot.WithReason
              (herodot.WithDebug herodot.ErrBadRequest (Error s err))
              ("Unable to parse HTTP form request: " +:+ Error s err))) in
          run (Login s f identityID) w
          = ((f, (None, Some unparsable)),
             here [CallNewLinkDecoder r; CallHandleError r f "" None unparsable])
      else
        match MethodEnabledAndAllowedFromRequest (d s) r (ID s) with
        | Some err =>
            run (Login s f identityID) w
            = ((f, (None, Some err)),
               here [CallMethodEnabledAndAllowedFromRequest r (ID s)])
        | None =>
            ∀ err,
              Decode s r = inr err →
              run (Login s f identityID) w
              = ((f, (None, Some err)),
                 here [CallMethodEnabledAndAllowedFromRequest r (ID s); CallDecode r;
                       CallHandleError r f "" None err])
        end
  end.
Proof.
  intros r here. unfold here, r, Login. unfold_body.
  destruct (CheckAAL _ _ _); [cbn [trace request]; by rewrite app_nil_r; destruct w|].
  destruct (decide (login.Type_ f = flow.TypeBrowser)); cbv iota beta.
  - intros err Herr. cbn [trace request]. rewrite Herr. by finish.
  - cbn [trace request].
    destruct (MethodEnabledAndAllowedFromRequest _ _ _); [by finish|].
    intros err Herr. cbn [trace request]. rewrite Herr. by finish.
Qed.

(** X13. Once a payload with a provider id is decoded, the method check, the
    provider resolution, the provider's OAuth2 client and the flow
    validation run in this order; the first that fails ends [Login] with
    its error, annotated with the provider id, the flow untouched and
    none of the later ones called; when all four pass, the run goes on
    to the session check. *)
Theorem Login_checks_fail p :
  decodes s f w p →
  UpdateLoginFlowWithOidcMethod.Provider p ≠ "" →
  let r := request w in
  let pid := UpdateLoginFlowWithOidcMethod.Provider p in
  let enabled := CallMethodEnabledAndAllowed (SettingsStrategyID s) (SettingsStrategyID s) in
  let failed es err :=
    run (Login s f identityID) w
    = ((f, (None, Some err)),
       {| trace := trace w ++ decoding s f w ++ es ++ [CallHandleError r f pid None err];
          request := r |}) in
  match MethodEnabledAndAllowed (d s) (SettingsStrategyID s) (SettingsStrategyID s) with
  | Some err => failed [enabled] err
  | None =>
      match oidc.provider s r pid with
      | inr err => failed [enabled; CallProvider r pid] err
      | inl provider =>
          match OAuth2 s provider with
          | inr err => failed [enabled; CallProvider r pid; CallOAuth2 provider] err
          | inl c =>
              match validateFlow s r (login.ID f) with
              | inr err =>
                  failed [enabled; CallProvider r pid; CallOAuth2 provider;
                          CallValidateFlow r (login.ID f)] err
              | inl req =>
                  Forall (λ e, e ∈ calls (Login s f identityID) w)
                    (start s f w p provider req)
              end
          end
      end
  end.
Proof.
  intros [Haal Hdec] Hpid r pid enabled failed.
  unfold failed, enabled, pid, r, calls, Login, start, decoding. unfold_body.
  rewrite Haal.
  destruct (decide (login.Type_ f = flow.TypeBrowser)) as [Hb|Hnb];
    [ rewrite Hdec | destruct Hdec as [Henr Hdec]; cbn [trace request]; rewrite Henr, Hdec ];
    cbn [trace request]; rewrite decide_False by done.
  all: destruct (MethodEnabledAndAllowed _ _ _); [by finish|]; cbn [trace request].
  all: destruct (oidc.provider _ _ _) as [provider|]; [|by finish]; cbn [trace request].
  all: destruct (OAuth2 _ _) as [c|]; [|by finish]; cbn [trace request].
  all: destruct (validateFlow _ _ _) as [req|]; [|by finish]; cbn [trace request].
  all: explore; added; cbn [app].
  all: repeat (constructor; [rewrite !elem_of_cons; tauto|]); constructor.
Qed.

End Login_paths.

Import scenario cases.

Lemma Login_identity_witness :
  login.Type_ (loginFlow flow.TypeAPI) = flow.TypeAPI
  ∧ result (Login nativeKnownUser (loginFlow flow.TypeAPI) []) world
    = (loginFlow flow.TypeAPI, (Some alice, None))
  ∧ Exists (λ e, verifiesIDToken e = true)
      (calls (Login nativeKnownUser (loginFlow flow.TypeAPI) []) world)
  ∧ ∃ identifier c,
      last (calls (Login nativeKnownUser (loginFlow flow.TypeAPI) []) world)
      = Some (CallFindByCredentialsIdentifier identity.CredentialsTypeOIDC identifier)
      ∧ FindByCredentialsIdentifier (d nativeKnownUser) identity.CredentialsTypeOIDC
          identifier
        = inl (alice, c).
Proof.
  apply (Login_identity nativeKnownUser (loginFlow flow.TypeAPI) [] world alice).
  vm_compute. reflexivity.
Defined.

Lemma Login_answer_witness :
  login.Type_ (loginFlow flow.TypeBrowser) = flow.TypeBrowser
  ∧ result (Login unknownUser (loginFlow flow.TypeBrowser) []) world
    = (activeFlow flow.TypeBrowser, (None, Some (WithStack ErrCompletedByStrategy)))
  ∧ login.Active (result (Login unknownUser (loginFlow flow.TypeBrowser) []) world).1
    = ID unknownUser
  ∧ ∃ before r name payload lifespan e,
      calls (Login unknownUser (loginFlow flow.TypeBrowser) []) world
      = before ++ [ CallPause r name payload lifespan;
                    CallUpdateLoginFlow (activeFlow flow.TypeBrowser); e ]
      ∧ answers e = true
      ∧ Forall (λ e, answers e = false) before
      ∧ Pause (d unknownUser) r name payload lifespan = None
      ∧ UpdateLoginFlow (d unknownUser) (activeFlow flow.TypeBrowser) = None.
Proof.
  apply (Login_answer unknownUser (loginFlow flow.TypeBrowser) [] world).
  vm_compute. repeat first [by apply Exists_cons_hd | apply Exists_cons_tl].
Defined.

Lemma Login_annotation_witness :
  ∃ before provider err,
    calls (Login nativeNoToken (loginFlow flow.TypeAPI) []) world
    = before ++ [ CallHandleError (request world)
                    (result (Login nativeNoToken (loginFlow flow.TypeAPI) []) world).1
                    provider None err ]
    ∧ Forall (λ e, annotates e = false) before
    ∧ (result (Login nativeNoToken (loginFlow flow.TypeAPI) []) world).2
      = (None, Some err).
Proof.
  apply (Login_annotation nativeNoToken (loginFlow flow.TypeAPI) [] world).
  vm_compute. repeat first [by apply Exists_cons_hd | apply Exists_cons_tl].
Defined.

Lemma Login_already_authenticated_witness :
  run (Login signedInUser (loginFlow flow.TypeBrowser) []) world
  = ((loginFlow flow.TypeBrowser, (None, None)),
     {| trace := trace world
          ++ start signedInUser (loginFlow flow.TypeBrowser) world
               (payload "google" "{}" "") (googleProvider None)
               {| GetID := login.ID (loginFlow flow.TypeBrowser) |};
        request := request world |}).
Proof.
  apply (Login_already_authenticated signedInUser (loginFlow flow.TypeBrowser) [] world
           (payload "google" "{}" "") (googleProvider None) googleClient
           {| GetID := login.ID (loginFlow flow.TypeBrowser) |}).
  unfold signedIn, decodes; split_and!; try done; vm_compute; first [done | by split].
Defined.

Lemma Login_unsupported_type_witness :
  run (Login unknownUser deviceFlow []) world
  = ((deviceFlow,
      (None, Some (WithStack (New ("Not supported flow type: " +:+ login.Type_ deviceFlow))))),
     {| trace := trace world
          ++ start unknownUser deviceFlow world (payload "google" "{}" "")
               (googleProvider None) {| GetID := login.ID deviceFlow |};
        request := request world |}).
Proof.
  apply (Login_unsupported_type unknownUser deviceFlow [] world
           (payload "google" "{}" "") (googleProvider None) googleClient
           {| GetID := login.ID deviceFlow |}).
  - vm_compute. discriminate.
  - vm_compute. discriminate.
  - reaches.
Defined.

Lemma Login_native_with_token_witness :
  run (Login nativeKnownUser (loginFlow flow.TypeAPI) []) world
  = ((loginFlow flow.TypeAPI, (Some alice, None)),
     {| trace := trace world
          ++ start nativeKnownUser (loginFlow flow.TypeAPI) world
               (payload "google" "{}" "eyJhbGciOi.eyJzdWIiOi.c2ln")
               (googleProvider (Some [link "google" "sub-123"]))
               {| GetID := login.ID (loginFlow flow.TypeAPI) |}
          ++ [ CallClaimsFromIDToken (googleProvider (Some [link "google" "sub-123"]))
                 "eyJhbGciOi.eyJzdWIiOi.c2ln";
               CallFindByCredentialsIdentifier identity.CredentialsTypeOIDC
                 "google:sub-123" ];
        request := request world |}).
Proof.
  apply (Login_native_with_token nativeKnownUser (loginFlow flow.TypeAPI) [] world
           (payload "google" "{}" "eyJhbGciOi.eyJzdWIiOi.c2ln")
           (googleProvider (Some [link "google" "sub-123"])) googleClient
           {| GetID := login.ID (loginFlow flow.TypeAPI) |}).
  - reflexivity.
  - reaches.
  - reflexivity.
  - vm_compute. discriminate.
Defined.

Lemma Login_continuity_fails_witness :
  run (Login (faults.inject faults.PauseFails unknownUser)
         (loginFlow flow.TypeBrowser) []) world
  = ((loginFlow flow.TypeBrowser,
      (None, Some (Foreign "continuity: could not persist"))),
     {| trace := trace world
          ++ start (faults.inject faults.PauseFails unknownUser)
               (loginFlow flow.TypeBrowser) world (payload "google" "{}" "")
               (googleProvider None)
               {| GetID := login.ID (loginFlow flow.TypeBrowser) |}
          ++ [ CallPause (request world) "ory_kratos_oidc_auth_code_session"
                 (paused (faults.inject faults.PauseFails unknownUser)
                    (loginFlow flow.TypeBrowser) (payload "google" "{}" ""))
                 (time.Minute * 30)%Z;
               CallHandleError (request world) (loginFlow flow.TypeBrowser) "google"
                 None (Foreign "continuity: could not persist") ];
        request := request world |})
  ∧ run (Login (faults.inject faults.UpdateFails unknownUser)
           (loginFlow flow.TypeBrowser) []) world
    = ((activeFlow flow.TypeBrowser,
        (None,
         Some (WithStack (Herodot (herodot.WithDebug
           (herodot.WithReason herodot.ErrInternalServerError "Could not update flow")
           "error"))))),
       {| trace := trace world
            ++ start (faults.inject faults.UpdateFails unknownUser)
                 (loginFlow flow.TypeBrowser) world (payload "google" "{}" "")
                 (googleProvider None)
                 {| GetID := login.ID (loginFlow flow.TypeBrowser) |}
            ++ [ CallPause (request world) "ory_kratos_oidc_auth_code_session"
                   (paused (faults.inject faults.UpdateFails unknownUser)
                      (loginFlow flow.TypeBrowser) (payload "google" "{}" ""))
                   (time.Minute * 30)%Z;
                 CallUpdateLoginFlow (activeFlow flow.TypeBrowser);
                 CallHandleError (request world) (activeFlow flow.TypeBrowser)
                   "google" None
                   (WithStack (Herodot (herodot.WithDebug
                      (herodot.WithReason herodot.ErrInternalServerError
                         "Could not update flow")
                      "error"))) ];
          request := request world |})
  ∧ login.Active (loginFlow flow.TypeBrowser) = ""
  ∧ login.Active
      (run (Login (faults.inject faults.UpdateFails unknownUser)
              (loginFlow flow.TypeBrowser) []) world).1.1
    = identity.CredentialsTypeOIDC.
Proof.
  pose proof (Login_continuity_fails (faults.inject faults.PauseFails unknownUser)
                (loginFlow flow.TypeBrowser) [] world (payload "google" "{}" "")
                (googleProvider None) googleClient
                {| GetID := login.ID (loginFlow flow.TypeBrowser) |}
                eq_refl ltac:(reaches)) as [Hpause _].
  pose proof (Login_continuity_fails (faults.inject faults.UpdateFails unknownUser)
                (loginFlow flow.TypeBrowser) [] world (payload "google" "{}" "")
                (googleProvider None) googleClient
                {| GetID := login.ID (loginFlow flow.TypeBrowser) |}
                eq_refl ltac:(reaches)) as [_ Hupdate].
  destruct (Hupdate (Foreign "sql: connection is already closed") eq_refl eq_refl)
    as [Hrun Hactive].
  split_and!.
  - apply Hpause. reflexivity.
  - exact Hrun.
  - reflexivity.
  - exact Hactive.
Defined.

Lemma Login_checks_fail_witness :
  Forall (λ e, e ∈ calls (Login unknownUser (loginFlow flow.TypeBrowser) []) world)
    (start unknownUser (loginFlow flow.TypeBrowser) world (payload "google" "{}" "")
       (googleProvider None) {| GetID := login.ID (loginFlow flow.TypeBrowser) |}).
Proof.
  apply (Login_checks_fail unknownUser (loginFlow flow.TypeBrowser) [] world
           (payload "google" "{}" "")).
  - split; reflexivity.
  - vm_compute. discriminate.
Defined.

End Login_facts.

(** ** The paths through [processLogin] *)

Module processLogin_facts.
Import oidc oidc_facts runs Login_facts.

Lemma forEach_cases {R A} (body : A → M R unit) l w r w' :
  (∀ x, body x w = (inl (), w) ∨ body x w = (inr r, w')) →
  forEach l body w = (inl (), w) ∨ forEach l body w = (inr r, w').
Proof.
  intros Hbody. induction l as [|x l IH]; [by left|].
  cbn [forEach]. unfold mbind, M_bind.
  destruct (Hbody x) as [->| ->]; [done|by right].
Qed.

(** The loop over the linked providers either runs through or returns what
    the first hit returns. *)
Ltac loop s a w :=
  match goal with
  | H : FindByCredentialsIdentifier _ _ _ = inl (?i, _) |- context [forEach ?l ?body ?w0] =>
      destruct (PostLoginHook (d s) (request w) node.OpenIDConnectGroup a i
                  (loginSession s)) eqn:Hhook;
      unfold loginSession in Hhook;
      (edestruct (forEach_cases body l w0) as [Hloop|Hloop];
       [ intros ?; destruct (decide _); [right|by left];
         cbn [trace request]; rewrite Hhook; reflexivity
       | rewrite Hloop; clear Hloop.. ])
  end.

Ltac paths s a w :=
  unfold calls, result, processLogin; unfold_body; explore; try loop s a w; added.

Section processLogin.
Variables (s : Strategy) (a : login.Flow) (token : option oauth2.Token)
  (claims : Claims) (provider : Provider) (container : option authCodeContainer)
  (w : World).

Local Abbreviation body := (processLogin s a token claims provider container).
Local Abbreviation identifier :=
  (OIDCUniqueID s (Configuration.ID (Config provider)) (Subject claims)).

Lemma processLogin_trace :
  trace (run body w).2 = trace w ++ calls body w.
Proof. paths s a w; by rewrite ?app_nil_r. Qed.

(** X14. No run of [processLogin] goes to the same collaborator twice, every
    run begins with the lookup by the credentials identifier of the
    asserted provider and subject, and a run that creates or processes a
    registration flow does not run the post-login hook. *)
Theorem processLogin_calls_once :
  NoDup (collaborator <$> calls body w)
  ∧ hd_error (calls body w)
    = Some (CallFindByCredentialsIdentifier identity.CredentialsTypeOIDC identifier)
  ∧ (Exists (λ e, startsRegistration e = true) (calls body w) →
     Forall (λ e, runsHook e = false) (calls body w)).
Proof.
  paths s a w; cbn; (split_and!; [by apply (bool_decide_unpack _)|done|]).
  all: intros H; first [by split_Exists|by repeat constructor].
Qed.

(** X15. [processLogin] rewrites the request exactly when the lookup answers
    that there are no rows: then the request it leaves has [return_to]
    set to the flow's [ReturnTo], whatever happens afterwards; on every
    other run the request is the one it was given. *)
Theorem processLogin_request :
  request (run body w).2
  = match FindByCredentialsIdentifier (d s) identity.CredentialsTypeOIDC identifier with
    | inr err =>
        if errors.Is err sqlcon.ErrNoRows then returning a (request w)
        else request w
    | inl _ => request w
    end.
Proof. by paths s a w. Qed.

(** X16. [processLogin] returns a registration flow only together with an
    error, and only the error of processing that very flow: the last
    call of the run is the registration processing of the returned flow,
    with the rewritten request, and that error is not annotated. *)
Theorem processLogin_returns_flow rf :
  (result body w).1 = Some rf →
  ∃ err,
    (result body w).2 = Some err
    ∧ last (calls body w)
      = Some (CallProcessRegistration (returning a (request w)) rf token claims
                provider container)
    ∧ processRegistration s (returning a (request w)) rf token claims provider
        container = Some err
    ∧ Forall (λ e, annotates e = false) (calls body w).
Proof.
  paths s a w; cbn [fst snd]; intros [=]; subst.
  all: eexists; split_and!; [done|done|done|by repeat constructor].
Qed.

(** X17. [processLogin] returns no error only in two ways, and then returns
    no flow: the run ends with a registration processing that succeeded,
    or with a post-login hook that succeeded for the identity the lookup
    found. *)
Theorem processLogin_success :
  (result body w).2 = None →
  (result body w).1 = None
  ∧ ((∃ rf,
        last (calls body w)
        = Some (CallProcessRegistration (returning a (request w)) rf token claims
                  provider container)
        ∧ processRegistration s (returning a (request w)) rf token claims provider
            container = None)
     ∨ (∃ i c,
          FindByCredentialsIdentifier (d s) identity.CredentialsTypeOIDC identifier
            = inl (i, c)
          ∧ last (calls body w)
            = Some (CallPostLoginHook (request w) node.OpenIDConnectGroup a i
                      (loginSession s))
          ∧ PostLoginHook (d s) (request w) node.OpenIDConnectGroup a i
              (loginSession s) = None)).
Proof.
  paths s a w; cbn [fst snd]; intros [=]; subst; (split; [done|]).
  all: first [left; by eexists | right; by eexists _, _].
Qed.


(** X18. The outcomes of [processLogin] when the lookup finds an identity:
    credentials that do not decode give the annotated internal error
    "The password credentials could not be decoded properly"; with a linked
    entry for the asserted provider and subject the post-login hook runs
    once, and its error, if any, is returned annotated; with no such
    entry the annotated credentials mismatch is returned. The request is
    left alone on all of them. *)
Theorem processLogin_when_found i c :
  FindByCredentialsIdentifier (d s) identity.CredentialsTypeOIDC identifier = inl (i, c) →
  let pid := Configuration.ID (Config provider) in
  let lookup := CallFindByCredentialsIdentifier identity.CredentialsTypeOIDC identifier in
  let hook := CallPostLoginHook (request w) node.OpenIDConnectGroup a i (loginSession s) in
  run body w
  = match decodeCredentialsOIDC s (identity.Config c) with
    | inr err =>
        let undecodable :=
          WithStack (Herodot (herodot.WithDebug
            (herodot.WithReason herodot.ErrInternalServerError
               "The password credentials could not be decoded properly")
            (Error s err))) in
        ((None, Some undecodable),
         {| trace := trace w ++ [lookup; CallHandleError (request w) a pid None undecodable];
            request := request w |})
    | inl o =>
        if decide (Exists (linked claims provider) (identity.Providers o)) then
          match PostLoginHook (d s) (request w) node.OpenIDConnectGroup a i
                  (loginSession s) with
          | Some err =>
              ((None, Some err),
               {| trace := trace w ++ [lookup; hook;
                                       CallHandleError (request w) a pid None err];
                  request := request w |})
          | None =>
              ((None, None),
               {| trace := trace w ++ [lookup; hook]; request := request w |})
          end
        else
          ((None, Some (credentialsMismatch pid (Subject claims))),
           {| trace := trace w ++ [lookup;
                CallHandleError (request w) a pid None
                  (credentialsMismatch pid (Subject claims))];
              request := request w |})
    end.
Proof.
  intros Hfind pid lookup hook. unfold processLogin. unfold_body.
  rewrite Hfind. destruct (decodeCredentialsOIDC s _) as [o|err]; [|by finish].
  fold (loginSession s). cbn [trace request].
  destruct (decide (Exists _ _)) as [Hlinked|Hnone].
  - destruct (PostLoginHook _ _ _ _ _ _) eqn:Hhook.
    + erewrite forEach_hit; [by finish| |].
      * eapply Exists_impl; [exact Hlinked|]. intros x Hx.
        rewrite decide_True by done. cbn [trace request]. rewrite Hhook. by finish.
      * apply Forall_forall. intros x _. destruct (decide _); [right|by left].
        cbn [trace request]. rewrite Hhook. by finish.
    + erewrite forEach_hit; [by finish| |].
      * eapply Exists_impl; [exact Hlinked|]. intros x Hx.
        rewrite decide_True by done. cbn [trace request]. rewrite Hhook. by finish.
      * apply Forall_forall. intros x _. destruct (decide _); [right|by left].
        cbn [trace request]. rewrite Hhook. by finish.
  - rewrite forEach_miss; [by finish|].
    apply Forall_forall. intros x Hx. rewrite decide_False; [done|].
    intros Hl. apply Hnone, Exists_exists. by exists x.
Qed.

(** X19. The outcomes of [processLogin] when the lookup fails: an error other
    than no rows is returned annotated and nothing else happens. On no
    rows the request is rewritten and a browser registration flow is
    asked for, with the flow's [ReturnTo] as an option when it is not
    empty; a failure to create it, or to take over the return-to
    parameter, is returned annotated without a flow; a failing
    registration processing is returned with the flow and without
    annotation; otherwise nothing is returned. *)
Theorem processLogin_when_not_found err :
  FindByCredentialsIdentifier (d s) identity.CredentialsTypeOIDC identifier = inr err →
  let pid := Configuration.ID (Config provider) in
  let lookup := CallFindByCredentialsIdentifier identity.CredentialsTypeOIDC identifier in
  let r := returning a (request w) in
  let opts :=
    if decide (0 < String.length (login.ReturnTo a))
    then [registration.WithFlowReturnTo (login.ReturnTo a)] else [] in
  let pivot :=
    [lookup; CallLoggerDebug pid (Subject claims) notRegistered;
     CallNewRegistrationFlow r flow.TypeBrowser opts] in
  run body w
  = if errors.Is err sqlcon.ErrNoRows then
      match NewRegistrationFlow (d s) r flow.TypeBrowser opts with
      | inr err =>
          ((None, Some err),
           {| trace := trace w ++ pivot ++ [CallHandleError r a pid None err];
              request := r |})
      | inl aa =>
          match TakeOverReturnToParameter s (login.RequestURL a)
                  (registration.RequestURL aa) with
          | inr err =>
              ((None, Some err),
               {| trace := trace w ++ pivot ++ [CallHandleError r a pid None err];
                  request := r |})
          | inl requestURL =>
              let aa := registration.withRequestURL aa requestURL in
              let registration :=
                CallProcessRegistration r aa token claims provider container in
              match processRegistration s r aa token claims provider container with
              | Some err =>
                  ((Some aa, Some err),
                   {| trace := trace w ++ pivot ++ [registration]; request := r |})
              | None =>
                  ((None, None),
                   {| trace := trace w ++ pivot ++ [registration]; request := r |})
              end
          end
      end
    else
      ((None, Some err),
       {| trace := trace w ++ [lookup; CallHandleError (request w) a pid None err];
          request := request w |}).
Proof.
  intros Hfind pid lookup r opts pivot. unfold processLogin. unfold_body.
  rewrite Hfind. destruct (errors.Is err sqlcon.ErrNoRows); [|by finish].
  cbn [trace request]. fold (returning a (request w)). fold r opts.
  destruct (NewRegistrationFlow _ _ _ _) as [aa|err']; [|by finish].
  destruct (TakeOverReturnToParameter _ _ _) as [u|err']; [|by finish].
  by destruct (processRegistration _ _ _ _ _ _ _); finish.
Qed.

End processLogin.

(** X20. The rewriting of the request on the way to registration changes the
    [return_to] parameter only: method, body, every part of the URL other
    than the query, and every other query parameter with all its values
    stay, and rewriting again with the same flow changes nothing. *)
Theorem returning_keeps_the_rest (a : login.Flow) (r : http.Request) :
  (http.Method (returning a r), http.Body (returning a r))
  = (http.Method r, http.Body r)
  ∧ (let u' := http.URL (returning a r) in
     let u := http.URL r in
     (url.Scheme u', url.Opaque u', url.Host u', url.Path u', url.RawPath u',
      url.Fragment u')
     = (url.Scheme u, url.Opaque u, url.Host u, url.Path u, url.RawPath u,
        url.Fragment u))
  ∧ (∀ k, k ≠ "return_to" →
       url.Query (http.URL (returning a r)) !! k = url.Query (http.URL r) !! k)
  ∧ returning a (returning a r) = returning a r.
Proof.
  assert (Hq : url.Query (http.URL (returning a r))
               = url.Set_ (url.Query (http.URL r)) "return_to" (login.ReturnTo a)).
  { unfold returning, url.Query. cbn.
    apply url_facts.ParseQuery_Encode, url_facts.populated_Set,
      url_facts.populated_ParseQuery. }
  split_and!; [done|done| |].
  - intros k Hk. rewrite Hq. unfold url.Set_. by rewrite lookup_insert_ne.
  - unfold returning at 1. rewrite Hq. unfold url.Set_.
    rewrite insert_insert_eq. by destruct r as [m [] b].
Qed.

Import scenario cases.

Lemma processLogin_returns_flow_witness :
  ∃ err,
    (result (processLogin (faults.inject faults.RegistrationFails unknownUser)
               (loginFlow flow.TypeBrowser) None claims (googleProvider None) None)
       world).2 = Some err
    ∧ last (calls (processLogin (faults.inject faults.RegistrationFails unknownUser)
                     (loginFlow flow.TypeBrowser) None claims (googleProvider None) None)
              world)
      = Some (CallProcessRegistration
                (returning (loginFlow flow.TypeBrowser) (request world))
                continuedFlow None claims (googleProvider None) None)
    ∧ processRegistration (faults.inject faults.RegistrationFails unknownUser)
        (returning (loginFlow flow.TypeBrowser) (request world))
        continuedFlow None claims (googleProvider None) None = Some err
    ∧ Forall (λ e, annotates e = false)
        (calls (processLogin (faults.inject faults.RegistrationFails unknownUser)
                  (loginFlow flow.TypeBrowser) None claims (googleProvider None) None)
           world).
Proof.
  apply (processLogin_returns_flow (faults.inject faults.RegistrationFails unknownUser)
           (loginFlow flow.TypeBrowser) None claims (googleProvider None) None world
           continuedFlow).
  vm_compute. reflexivity.
Defined.

Lemma processLogin_success_witness :
  (result (processLogin knownUser (loginFlow flow.TypeBrowser) None claims
             (googleProvider None) None) world).1 = None
  ∧ ((∃ rf,
        last (calls (processLogin knownUser (loginFlow flow.TypeBrowser) None claims
                       (googleProvider None) None) world)
        = Some (CallProcessRegistration
                  (returning (loginFlow flow.TypeBrowser) (request world)) rf None
                  claims (googleProvider None) None)
        ∧ processRegistration knownUser
            (returning (loginFlow flow.TypeBrowser) (request world)) rf None claims
            (googleProvider None) None = None)
     ∨ (∃ i c,
          FindByCredentialsIdentifier (d knownUser) identity.CredentialsTypeOIDC
            (OIDCUniqueID knownUser (Configuration.ID (Config (googleProvider None)))
               (Subject claims))
            = inl (i, c)
          ∧ last (calls (processLogin knownUser (loginFlow flow.TypeBrowser) None claims
                           (googleProvider None) None) world)
            = Some (CallPostLoginHook (request world) node.OpenIDConnectGroup
                      (loginFlow flow.TypeBrowser) i (loginSession knownUser))
          ∧ PostLoginHook (d knownUser) (request world) node.OpenIDConnectGroup
              (loginFlow flow.TypeBrowser) i (loginSession knownUser) = None)).
Proof.
  apply (processLogin_success knownUser (loginFlow flow.TypeBrowser) None claims
           (googleProvider None) None world).
  vm_compute. reflexivity.
Defined.

Lemma processLogin_when_found_witness :
  run (processLogin (faults.inject faults.HookFails knownUser)
         (loginFlow flow.TypeBrowser) None claims (googleProvider None) None) world
  = ((None, Some (Foreign "hook rejected the login")),
     {| trace := trace world ++ [
          CallFindByCredentialsIdentifier identity.CredentialsTypeOIDC "google:sub-123";
          CallPostLoginHook (request world) node.OpenIDConnectGroup
            (loginFlow flow.TypeBrowser) alice
            (loginSession (faults.inject faults.HookFails knownUser));
          CallHandleError (request world) (loginFlow flow.TypeBrowser) "google" None
            (Foreign "hook rejected the login") ];
        request := request world |}).
Proof.
  apply (processLogin_when_found (faults.inject faults.HookFails knownUser)
           (loginFlow flow.TypeBrowser) None claims (googleProvider None) None world
           alice credentials).
  reflexivity.
Defined.

Lemma processLogin_when_not_found_witness :
  run (processLogin (faults.inject faults.TakeOverFails unknownUser)
         (loginFlow flow.TypeBrowser) None claims (googleProvider None) None) world
  = ((None, Some (Foreign "parse: invalid URL escape")),
     {| trace := trace world ++ [
          CallFindByCredentialsIdentifier identity.CredentialsTypeOIDC "google:sub-123";
          CallLoggerDebug "google" "sub-123" notRegistered;
          CallNewRegistrationFlow (returning (loginFlow flow.TypeBrowser) (request world))
            flow.TypeBrowser [registration.WithFlowReturnTo "https://app.example.org"];
          CallHandleError (returning (loginFlow flow.TypeBrowser) (request world))
            (loginFlow flow.TypeBrowser) "google" None
            (Foreign "parse: invalid URL escape") ];
        request := returning (loginFlow flow.TypeBrowser) (request world) |}).
Proof.
  apply (processLogin_when_not_found (faults.inject faults.TakeOverFails unknownUser)
           (loginFlow flow.TypeBrowser) None claims (googleProvider None) None world
           (WithStack sqlcon.ErrNoRows)).
  reflexivity.
Defined.

End processLogin_facts.

(** ** More on the URL augmentation *)

Module flow_more.
Import url url_facts flow flow_facts text oidc registry_facts.
Import ContinueWithVerificationUI.

Lemma QueryEscape_unreserved s :
  allBytes unreserved s = true → QueryEscape s = s.
Proof.
  induction s as [|c s IH]; [done|].
  cbn [allBytes QueryEscape]. intros [Hc Hs]%andb_true_iff.
  rewrite IH by done. unfold escapeByte, unreserved in *.
  by destruct (shouldEscape c).
Qed.

Lemma allBytes_app P a b :
  allBytes P (a +:+ b) = allBytes P a && allBytes P b.
Proof.
  induction a as [|c a IH]; [done|].
  change (String c a +:+ b) with (String c (a +:+ b)).
  cbn [allBytes]. rewrite IH. by destruct (P c).
Qed.

Lemma hexEncode_unreserved src : allBytes unreserved (uuid.hexEncode src) = true.
Proof.
  induction src as [|c src IH]; [done|].
  cbn [uuid.hexEncode foldr allBytes]. fold (uuid.hexEncode src). rewrite IH.
  by each_byte c.
Qed.

Lemma String_unreserved u : allBytes unreserved (uuid.String_ u) = true.
Proof.
  unfold uuid.String_.
  repeat (rewrite allBytes_app, ?hexEncode_unreserved; cbn [andb]).
  change ("-" +:+ ?t) with (String "-" t). cbn [allBytes].
  repeat (rewrite ?allBytes_app, ?hexEncode_unreserved; cbn [andb];
          change ("-" +:+ ?t) with (String "-" t); cbn [allBytes]).
  done.
Qed.

Lemma length_append (a b : string) :
  String.length (a +:+ b) = String.length a + String.length b.
Proof.
  induction a as [|c a IH]; [done|].
  change (String c a +:+ b) with (String c (a +:+ b)). cbn. by rewrite IH.
Qed.

Lemma length_hexEncode src : String.length (uuid.hexEncode src) = 2 * length src.
Proof.
  induction src as [|c src IH]; [done|].
  cbn [uuid.hexEncode foldr]. fold (uuid.hexEncode src). cbn. rewrite IH. lia.
Qed.

Lemma Encode_occurs (v : Values) k vs x :
  v !! k = Some vs → x ∈ vs →
  occurs (QueryEscape k +:+ "=" +:+ QueryEscape x) (Encode v).
Proof.
  intros Hk Hx. unfold Encode. apply occurs_concat, list_elem_of_bind.
  exists k. split.
  - unfold encodeKey. rewrite lookup_total_alt, Hk. cbn.
    apply list_elem_of_fmap. by exists x.
  - rewrite merge_sort_Permutation. apply list_elem_of_fmap.
    exists (k, vs). split; [done|]. by apply elem_of_map_to_list.
Qed.

Section AppendTo.
Variables (c : ContinueWithVerificationUI.t) (src : positive) (h : urlStore) (u : URL).
Hypothesis live : h !! src = Some u.

Local Abbreviation flowID :=
  (uuid.String_ (ContinueWithVerificationUIFlow.ID (Flow c))).

(** X21. [ContinueWithVerificationUI.AppendTo] keeps the scheme, opaque
    part, host, path, raw path and fragment of the source, but of the
    query it keeps, for every key other than [flow], the first value
    only: a key the source has several values for comes out with the
    first of them, and a key the source does not have stays absent. *)
Theorem AppendTo_keeps_first_values :
  ∃ out h' u',
    AppendTo c src h = Some (out, h')
    ∧ h' !! out = Some u'
    ∧ (Scheme u', Opaque u', Host u', Path u', RawPath u', Fragment u')
      = (Scheme u, Opaque u, Host u, Path u, RawPath u, Fragment u)
    ∧ (∀ k, k ≠ "flow" → Query u' !! k = take 1 <$> Query u !! k)
    ∧ (∀ k vs, Query u' !! k = Some vs → length vs = 1).
Proof.
  exists (fresh (dom h)), (<[fresh (dom h) := augmented c u]> h), (augmented c u).
  split_and!.
  - by apply AppendTo_allocates.
  - by rewrite lookup_insert_eq.
  - done.
  - intros k Hk. rewrite Query_augmented, lookup_insert_ne, lookup_fmap by done.
    pose proof (populated_ParseQuery (RawQuery u) k) as Hpop. unfold Query.
    by destruct (ParseQuery (RawQuery u) !! k) as [[|x vs]|].
  - intros k vs. rewrite Query_augmented.
    destruct (decide (k = "flow")) as [->|Hk].
    + rewrite lookup_insert_eq. by intros [= <-].
    + rewrite lookup_insert_ne, lookup_fmap by done.
      destruct (Query u !! k); [|done]. by intros [= <-].
Qed.

(** X22. The string form of a flow id needs no escaping: the raw query of
    the URL that [AppendTo] returns contains ["flow="] followed by the
    id's string form as it is, and for an id of sixteen bytes that form
    has thirty-six characters. *)
Theorem AppendTo_flow_verbatim :
  ∃ out h' u',
    AppendTo c src h = Some (out, h')
    ∧ h' !! out = Some u'
    ∧ occurs ("flow=" +:+ flowID) (RawQuery u')
    ∧ (length (ContinueWithVerificationUIFlow.ID (Flow c)) = 16 →
       String.length flowID = 36).
Proof.
  exists (fresh (dom h)), (<[fresh (dom h) := augmented c u]> h), (augmented c u).
  split_and!.
  - by apply AppendTo_allocates.
  - by rewrite lookup_insert_eq.
  - unfold augmented. cbn [RawQuery withRawQuery]. rewrite merged_Set.
    pose proof (Encode_occurs
                  (<["flow" := [flowID]]>
                     ((λ vs : list string, [hd "" vs]) <$> Query u))
                  "flow" [flowID] flowID) as Hocc.
    rewrite (QueryEscape_unreserved flowID) in Hocc by apply String_unreserved.
    apply Hocc; [apply lookup_insert_eq|by left].
  - intros Hlen. unfold uuid.String_.
    rewrite !length_append, !length_hexEncode, !length_take, !length_drop, Hlen.
    reflexivity.
Qed.

End AppendTo.

(** X23. Applying [AppendTo] for one flow and then for another to the
    result gives the URL that applying it for the second flow alone to
    the source gives: its query has the second id as the one value of
    [flow]. The source still holds its value. *)
Theorem AppendTo_latest_flow_wins (c1 c2 : ContinueWithVerificationUI.t)
    (src : positive) (h : urlStore) (u : URL) :
  h !! src = Some u →
  ∃ p1 h1 p2 h2 out h' u2,
    AppendTo c1 src h = Some (p1, h1)
    ∧ AppendTo c2 p1 h1 = Some (p2, h2)
    ∧ AppendTo c2 src h = Some (out, h')
    ∧ h' !! out = Some u2
    ∧ h2 !! p2 = Some u2
    ∧ Query u2 !! "flow"
      = Some [uuid.String_ (ContinueWithVerificationUIFlow.ID (Flow c2))]
    ∧ h2 !! src = Some u.
Proof.
  intros Hsrc.
  set (p1 := fresh (dom h)). set (h1 := <[p1 := augmented c1 u]> h).
  assert (H1 : h1 !! p1 = Some (augmented c1 u)) by apply lookup_insert_eq.
  assert (Hne : p1 ≠ src).
  { intros E. pose proof (fresh_unmapped h) as Hf. fold p1 in Hf. congruence. }
  exists p1, h1, (fresh (dom h1)), (<[fresh (dom h1) := augmented c2 u]> h1),
    p1, (<[p1 := augmented c2 u]> h), (augmented c2 u).
  split_and!.
  - by apply AppendTo_allocates.
  - rewrite (AppendTo_allocates c2 p1 h1 (augmented c1 u)) by done.
    by rewrite augmented_augmented.
  - by apply AppendTo_allocates.
  - by rewrite lookup_insert_eq.
  - by rewrite lookup_insert_eq.
  - rewrite Query_augmented. apply lookup_insert_eq.
  - assert (Hne2 : fresh (dom h1) ≠ src).
    { intros E. pose proof (fresh_unmapped h1) as Hf. rewrite E in Hf.
      unfold h1 in Hf. rewrite lookup_insert_ne in Hf by done. congruence. }
    rewrite lookup_insert_ne by done. unfold h1. by rewrite lookup_insert_ne.
Qed.

Import scenario cases.

Lemma AppendTo_keeps_first_values_witness :
  ∃ out h' u',
    AppendTo flow7 1%positive {[ 1%positive := verifyURL ]} = Some (out, h')
    ∧ h' !! out = Some u'
    ∧ (Scheme u', Opaque u', Host u', Path u', RawPath u', Fragment u')
      = (Scheme verifyURL, Opaque verifyURL, Host verifyURL, Path verifyURL,
         RawPath verifyURL, Fragment verifyURL)
    ∧ (∀ k, k ≠ "flow" → Query u' !! k = take 1 <$> Query verifyURL !! k)
    ∧ (∀ k vs, Query u' !! k = Some vs → length vs = 1).
Proof.
  apply (AppendTo_keeps_first_values flow7 1%positive {[ 1%positive := verifyURL ]}
           verifyURL).
  reflexivity.
Defined.

(** The source of the witnesses has two values for [z]; one is kept. *)
Example verifyURL_repeats :
  Query verifyURL !! "z" = Some ["1"; "2"]
  ∧ Query (augmented flow7 verifyURL) !! "z" = Some ["1"].
Proof. split; vm_compute; reflexivity. Qed.

Lemma AppendTo_flow_verbatim_witness :
  ∃ out h' u',
    AppendTo flow7 1%positive {[ 1%positive := verifyURL ]} = Some (out, h')
    ∧ h' !! out = Some u'
    ∧ occurs ("flow=" +:+ uuid.String_ (ContinueWithVerificationUIFlow.ID (Flow flow7)))
        (RawQuery u')
    ∧ (length (ContinueWithVerificationUIFlow.ID (Flow flow7)) = 16 →
       String.length (uuid.String_ (ContinueWithVerificationUIFlow.ID (Flow flow7))) = 36).
Proof.
  apply (AppendTo_flow_verbatim flow7 1%positive {[ 1%positive := verifyURL ]} verifyURL).
  reflexivity.
Defined.

Lemma AppendTo_latest_flow_wins_witness :
  ∃ p1 h1 p2 h2 out h' u2,
    AppendTo flow7 1%positive {[ 1%positive := verifyURL ]} = Some (p1, h1)
    ∧ AppendTo flow9 p1 h1 = Some (p2, h2)
    ∧ AppendTo flow9 1%positive {[ 1%positive := verifyURL ]} = Some (out, h')
    ∧ h' !! out = Some u2
    ∧ h2 !! p2 = Some u2
    ∧ Query u2 !! "flow"
      = Some [uuid.String_ (ContinueWithVerificationUIFlow.ID (Flow flow9))]
    ∧ h2 !! 1%positive = Some verifyURL.
Proof.
  apply (AppendTo_latest_flow_wins flow7 flow9 1%positive {[ 1%positive := verifyURL ]}
           verifyURL).
  reflexivity.
Defined.

End flow_more.

(** ** More on provider resolution *)

Module registry_more.
Import oidc registry_facts.
Import ConfigurationCollection.

(** The configurations of [ps] that carry [id], in their order. *)
Local Abbreviation named id ps :=
  (filter (λ p : Configuration.t, Configuration.ID p = id) ps).

Lemma documented_registered kind :
  kind ∈ documented.kinds ↔ is_Some (providers !! kind).
Proof.
  split.
  - revert kind. apply Forall_forall. unfold documented.kinds.
    repeat (constructor; [by eexists|]). constructor.
  - intros [f Hf]. apply elem_of_map_to_list in Hf.
    assert (Hk : kind ∈ (map_to_list providers).*1).
    { apply list_elem_of_fmap. by exists (kind, f). }
    clear f Hf. revert kind Hk. apply Forall_forall.
    apply (bool_decide_unpack _). vm_compute. exact I.
Qed.

Section Provider.
Variable rangeOrder : list string → list string.

(** X24. Resolution looks at the first configuration with the id and at
    nothing else: it gives what it gives for the collection that holds
    only that configuration, whatever the base redirect URI. The order
    in which the map of constructors is ranged over matters to the
    message of the unsupported-kind error only. *)
Theorem Provider_first_match (otherOrder : list string → list string) c id reg :
  Provider rangeOrder c id reg
  = Provider rangeOrder
      {| BaseRedirectURI := ""; Providers := take 1 (named id (Providers c)) |}
      id reg
  ∧ ((∃ message message',
        Provider rangeOrder c id reg = inr (New message)
        ∧ Provider otherOrder c id reg = inr (New message'))
     ∨ Provider rangeOrder c id reg = Provider otherOrder c id reg).
Proof.
  unfold Provider. cbn [Providers]. split.
  - induction (Providers c) as [|p ps IH]; [done|].
    cbn [rangeProviders]. rewrite filter_cons.
    destruct (decide (Configuration.ID p = id)) as [Hp|Hp]; [|done].
    cbn [take rangeProviders]. by rewrite decide_True.
  - induction (Providers c) as [|p ps IH]; [by right|].
    cbn [rangeProviders]. destruct (decide _); [|done].
    destruct (providers !! _); [by right|]. left. by eexists _, _.
Qed.

(** X25. The kinds the comment on [Configuration.Provider] lists are the kinds
    with a constructor. So for a collection that uses listed kinds only,
    resolution fails in one way only, with the unknown-provider error
    when no configuration has the id, and otherwise returns what the
    constructor of the kind of the first configuration with the id
    builds from it. *)
Theorem Provider_documented_kinds c id reg :
  Forall (λ p, Configuration.Provider p ∈ documented.kinds) (Providers c) →
  match Provider rangeOrder c id reg with
  | inl prov =>
      ∃ p f,
        head (named id (Providers c)) = Some p
        ∧ providers !! Configuration.Provider p = Some f
        ∧ prov = f p reg
  | inr e =>
      e = providerUnknown id ∧ named id (Providers c) = []
  end.
Proof.
  unfold Provider. induction 1 as [|p ps Hp _ IH]; [done|].
  cbn [rangeProviders]. rewrite filter_cons.
  destruct (decide (Configuration.ID p = id)) as [Hid|Hid]; [|done].
  apply documented_registered in Hp as [f Hf]. rewrite Hf. by exists p, f.
Qed.

End Provider.

Lemma Provider_documented_kinds_witness :
  match Provider id scenario.collection "google" (scenario.deps None) with
  | inl prov =>
      ∃ p f,
        head (named "google" (Providers scenario.collection)) = Some p
        ∧ providers !! Configuration.Provider p = Some f
        ∧ prov = f p (scenario.deps None)
  | inr e =>
      e = providerUnknown "google"
      ∧ named "google" (Providers scenario.collection) = []
  end.
Proof.
  apply (Provider_documented_kinds id scenario.collection "google" (scenario.deps None)).
  apply (bool_decide_unpack _). vm_compute. exact I.
Defined.

End registry_more.

(** ** The generated client model *)

Module client_facts.
Import client.

Section accessors.
Variables (h : store) (a : positive) (x : ContinueWithVerificationUIFlow).
Hypothesis live : h !! a = Some x.

(** X26. On a live struct, [SetId] and [SetVerifiableAddress] succeed, the
    matching getter and the pointer of the matching [Ok] getter then
    read the new value, the other field reads as before, and no other
    struct of the store changes. *)
Theorem setters_then_read (v : string) :
  (∃ h',
     SetId (Some a) v h = Some h'
     ∧ GetId (Some a) h' = Some v
     ∧ GetVerifiableAddress (Some a) h' = GetVerifiableAddress (Some a) h
     ∧ load (GetIdOk (Some a)).1 h' = Some v
     ∧ (∀ b, b ≠ a → h' !! b = h !! b)
     ∧ dom h' = dom h)
  ∧ (∃ h',
       SetVerifiableAddress (Some a) v h = Some h'
       ∧ GetVerifiableAddress (Some a) h' = Some v
       ∧ GetId (Some a) h' = GetId (Some a) h
       ∧ load (GetVerifiableAddressOk (Some a)).1 h' = Some v
       ∧ (∀ b, b ≠ a → h' !! b = h !! b)
       ∧ dom h' = dom h).
Proof.
  assert (Hdom : ∀ y, dom (<[a := y]> h) = dom h).
  { intros y. apply set_eq. intros b.
    rewrite dom_insert, elem_of_union, elem_of_singleton.
    split; [intros [->|?]; [by apply elem_of_dom|done]|by right]. }
  split; eexists.
  - unfold SetId. cbn. rewrite live. cbn. split_and!; [done|..|apply Hdom].
    + by rewrite lookup_insert_eq.
    + by rewrite lookup_insert_eq.
    + by rewrite lookup_insert_eq.
    + intros b Hb. by rewrite lookup_insert_ne.
  - unfold SetVerifiableAddress. cbn. rewrite live. cbn.
    split_and!; [done|..|apply Hdom].
    + by rewrite lookup_insert_eq.
    + by rewrite lookup_insert_eq.
    + by rewrite lookup_insert_eq.
    + intros b Hb. by rewrite lookup_insert_ne.
Qed.

(** X27. On a live struct the two setters commute, together they leave
    exactly the struct with the two values given, and of two [SetId] in
    a row the second decides. *)
Theorem setters_commute (id address : string) :
  (SetId (Some a) id h ≫= SetVerifiableAddress (Some a) address)
  = (SetVerifiableAddress (Some a) address h ≫= SetId (Some a) id)
  ∧ (SetId (Some a) id h ≫= SetVerifiableAddress (Some a) address)
    = Some (<[a := {| Id := id; VerifiableAddress := address |}]> h)
  ∧ (SetId (Some a) address h ≫= SetId (Some a) id) = SetId (Some a) id h.
Proof.
  unfold SetId, SetVerifiableAddress. cbn. rewrite live. cbn.
  rewrite !lookup_insert_eq. cbn. by rewrite !insert_insert_eq.
Qed.

End accessors.

Lemma setters_then_read_witness :
  (∃ h',
     SetId (Some 1%positive) "new@example.org" one = Some h'
     ∧ GetId (Some 1%positive) h' = Some "new@example.org"
     ∧ GetVerifiableAddress (Some 1%positive) h' = GetVerifiableAddress (Some 1%positive) one
     ∧ load (GetIdOk (Some 1%positive)).1 h' = Some "new@example.org"
     ∧ (∀ b, b ≠ 1%positive → h' !! b = one !! b)
     ∧ dom h' = dom one)
  ∧ (∃ h',
       SetVerifiableAddress (Some 1%positive) "new@example.org" one = Some h'
       ∧ GetVerifiableAddress (Some 1%positive) h' = Some "new@example.org"
       ∧ GetId (Some 1%positive) h' = GetId (Some 1%positive) one
       ∧ load (GetVerifiableAddressOk (Some 1%positive)).1 h' = Some "new@example.org"
       ∧ (∀ b, b ≠ 1%positive → h' !! b = one !! b)
       ∧ dom h' = dom one).
Proof.
  apply (setters_then_read one 1%positive
           {| Id := "f-1"; VerifiableAddress := "user@example.org" |}).
  reflexivity.
Defined.

Lemma setters_commute_witness :
  (SetId (Some 1%positive) "f-2" one
     ≫= SetVerifiableAddress (Some 1%positive) "new@example.org")
  = (SetVerifiableAddress (Some 1%positive) "new@example.org" one
       ≫= SetId (Some 1%positive) "f-2")
  ∧ (SetId (Some 1%positive) "f-2" one
       ≫= SetVerifiableAddress (Some 1%positive) "new@example.org")
    = Some (<[1%positive := {| Id := "f-2"; VerifiableAddress := "new@example.org" |}]> one)
  ∧ (SetId (Some 1%positive) "new@example.org" one ≫= SetId (Some 1%positive) "f-2")
    = SetId (Some 1%positive) "f-2" one.
Proof.
  apply (setters_commute one 1%positive
           {| Id := "f-1"; VerifiableAddress := "user@example.org" |}).
  reflexivity.
Defined.

(** X28. [NewContinueWithVerificationUIFlow] returns the address of a new
    struct: no struct was there before, the getters read the two
    arguments back from it, every struct that was there is at another
    address and unchanged, and the next struct that is constructed is
    at yet another address. *)
Theorem constructor_allocates (id address : string) (h : store) :
  let '(a, h') := NewContinueWithVerificationUIFlow id address h in
  h !! a = None
  ∧ GetId (Some a) h' = Some id
  ∧ GetVerifiableAddress (Some a) h' = Some address
  ∧ (∀ b, is_Some (h !! b) → b ≠ a ∧ h' !! b = h !! b)
  ∧ ∀ id2 address2,
      (NewContinueWithVerificationUIFlow id2 address2 h').1 ≠ a.
Proof.
  unfold NewContinueWithVerificationUIFlow. cbn.
  assert (Hfresh : h !! fresh (dom h) = None).
  { apply not_elem_of_dom, is_fresh. }
  split_and!; [done|by rewrite lookup_insert_eq..| |].
  - intros b [y Hb]. assert (b ≠ fresh (dom h)) by congruence.
    by rewrite lookup_insert_ne.
  - intros _ _ E.
    apply (is_fresh (dom (<[fresh (dom h) := mk id address]> h))).
    rewrite E at 1. apply elem_of_dom. by rewrite lookup_insert_eq.
Qed.

(** X29. The flag of an [Ok] getter says whether the receiver is not [nil].
    When it is set, the pointer that comes with it reads what the plain
    getter returns. When it is not, the pointer is [nil], the plain
    getters return the empty string instead of panicking, and the
    setters panic. *)
Theorem Ok_agrees_with_getter (o : option positive) (h : store) :
  ((GetIdOk o).2 = true ↔ o ≠ None)
  ∧ (GetVerifiableAddressOk o).2 = (GetIdOk o).2
  ∧ (if (GetIdOk o).2
     then load (GetIdOk o).1 h = GetId o h
          ∧ load (GetVerifiableAddressOk o).1 h = GetVerifiableAddress o h
     else (GetIdOk o).1 = None
          ∧ (GetVerifiableAddressOk o).1 = None
          ∧ GetId o h = Some ""
          ∧ GetVerifiableAddress o h = Some ""
          ∧ ∀ v, SetId o v h = None ∧ SetVerifiableAddress o v h = None).
Proof. destruct o as [a|]; cbn; split_and!; try done; split; congruence. Qed.

(** X30. The nullable wrapper: after [Set] the value is the one given and the
    wrapper is set, which is what the constructor builds whatever the
    wrapper held; after [Unset] the value is [nil] and the wrapper is
    not set, whatever was set before; a wrapper constructed around [nil]
    counts as set. *)
Theorem Nullable_laws (v : Nullable.t) (val : option positive) :
  Nullable.Get (Nullable.Set_ v val) = val
  ∧ Nullable.IsSet (Nullable.Set_ v val) = true
  ∧ Nullable.Set_ v val = NewNullableContinueWithVerificationUIFlow val
  ∧ Nullable.Get (Nullable.Unset v) = None
  ∧ Nullable.IsSet (Nullable.Unset v) = false
  ∧ Nullable.Unset (Nullable.Set_ v val) = Nullable.Unset v
  ∧ Nullable.IsSet (NewNullableContinueWithVerificationUIFlow None) = true.
Proof. done. Qed.

End client_facts.
